(** * A shallow embedding of the Vortex Express 5 SDK request handlers

    The handlers live in [handlers/invitations.ts] (the current version is
    the one that exports [handleSyncInternalInvitation], which [routes.ts]
    imports), [handlers/jwt.ts] and [utils.ts].  JavaScript strings are
    sequences of UTF-16 code units, modelled as [list N]; parsed JSON bodies
    and Express query values are modelled by [jvalue]. *)

From Stdlib Require Import List NArith ZArith String Ascii Bool Lia.
Import ListNotations.
Set Warnings "-register-all".

Open Scope string_scope.
Open Scope N_scope.

(** ** Strings as UTF-16 code units *)

Definition str := list N.

Fixpoint of_string (s : string) : str :=
  match s with
  | EmptyString => []
  | String c s' => N_of_ascii c :: of_string s'
  end.

Fixpoint str_eqb (a b : str) : bool :=
  match a, b with
  | [], [] => true
  | x :: a', y :: b' => (x =? y) && str_eqb a' b'
  | _, _ => false
  end.

(** [Array.prototype.includes] on an array of string literals. *)
Definition includes (xs : list string) (s : str) : bool :=
  existsb (fun x => str_eqb (of_string x) s) xs.

(** ECMAScript WhiteSpace and LineTerminator code units, which
    [String.prototype.trim] removes from both ends. *)
Definition is_js_ws (c : N) : bool :=
  (c =? 9) || (c =? 10) || (c =? 11) || (c =? 12) || (c =? 13) || (c =? 32)
  || (c =? 160) || (c =? 5760) || ((8192 <=? c) && (c <=? 8202))
  || (c =? 8232) || (c =? 8233) || (c =? 8239) || (c =? 8287)
  || (c =? 12288) || (c =? 65279).

Fixpoint drop_ws (s : str) : str :=
  match s with
  | [] => []
  | c :: s' => if is_js_ws c then drop_ws s' else s
  end.

(** [s.trim()] *)
Definition trim (s : str) : str := rev (drop_ws (rev (drop_ws s))).

(** The four characters of the character class of [sanitizeInput]'s
    regular expression: less-than, greater-than, apostrophe and double
    quote (code units 60, 62, 39, 34). *)
Definition is_xss (c : N) : bool := (c =? 60) || (c =? 62) || (c =? 39) || (c =? 34).

(** [s.replace(<that class, global>, '')] *)
Definition strip_xss (s : str) : str := filter (fun c => negb (is_xss c)) s.

(** [s.substring(0, n)] *)
Definition substring0 (s : str) (n : nat) : str := firstn n s.

(** The string pipeline of [sanitizeInput] once the input is a non-empty
    string. *)
Definition sanitize_str (s : str) : str := substring0 (strip_xss (trim s)) 1000.

(** [sanitizeInput(input: string | null): string | null] (utils.ts):
    [if (!input) return null;] then trim, strip, truncate. *)
Definition sanitizeInput (input : option str) : option str :=
  match input with
  | None => None
  | Some [] => None
  | Some s => Some (sanitize_str s)
  end.

(** JavaScript truthiness of a [string | null]. *)
Definition str_truthy (o : option str) : bool :=
  match o with
  | Some (_ :: _) => true
  | _ => false
  end.

(** ** JSON values, as produced by [express.json()] and the query parser *)

Inductive jvalue : Type :=
| JUndef
| JNull
| JBool (b : bool)
| JNum (z : Z)
| JStr (s : str)
| JArr (l : list jvalue)
| JObj (fields : list (str * jvalue)).

(** JavaScript truthiness ([Boolean(v)]); numbers are integral here, so
    the only falsy number is 0. *)
Definition truthy (v : jvalue) : bool :=
  match v with
  | JUndef | JNull => false
  | JBool b => b
  | JNum z => negb (Z.eqb z 0)
  | JStr s => match s with [] => false | _ => true end
  | JArr _ | JObj _ => true
  end.

(** Property access [v.k]: the last binding of [k] wins, as with
    [JSON.parse]; any other value has no such own property. *)
Definition get_field (v : jvalue) (k : string) : jvalue :=
  match v with
  | JObj fs =>
      match find (fun kv => str_eqb (fst kv) (of_string k)) (rev fs) with
      | Some (_, x) => x
      | None => JUndef
      end
  | _ => JUndef
  end.

(** [['a', 'b', ...].includes(v)] for a value of unknown type: strict
    equality, so only a string can match. *)
Definition includes_v (xs : list string) (v : jvalue) : bool :=
  match v with
  | JStr s => includes xs s
  | _ => false
  end.

Definition obj (fs : list (string * jvalue)) : jvalue :=
  JObj (map (fun kv => (of_string (fst kv), snd kv)) fs).

(** Lift a Rocq string literal into a JavaScript string value. *)
Definition js (s : string) : jvalue := JStr (of_string s).

(** ** Requests, identities, configuration *)

Record request : Type := {
  method : str;
  query : list (str * jvalue);   (* req.query *)
  params : list (str * str);     (* req.params *)
  body : jvalue                  (* req.body *)
}.

(** The [AuthenticatedUser] returned by the [authenticateUser] hook
    (only the fields the handlers read). *)
Record AuthenticatedUser : Type := {
  userId : option str;
  userEmail : option str;
  userName : option str;
  userAvatarUrl : option str;
  adminScopes : option (list str);
  allowedEmailDomains : option (list str);
  attributes : jvalue
}.

(** The resource argument handed to an access-control hook. *)
Inductive resource : Type :=
| RNone
| RInvitation (invitationId : str)
| RAccept (invitationIds : list str) (target user : jvalue)
| RGroup (groupType groupId : str)
| RSync (creatorId targetValue action componentId : str).

Definition hook := request -> option AuthenticatedUser -> resource -> bool.

(** [VortexConfig]: every access-control hook is optional. *)
Record VortexConfig : Type := {
  apiKey : str;
  authenticateUser : option (request -> option AuthenticatedUser);
  canAccessInvitationsByTarget : option hook;
  canAccessInvitation : option hook;
  canDeleteInvitation : option hook;
  canAcceptInvitations : option hook;
  canAccessInvitationsByGroup : option hook;
  canDeleteInvitationsByGroup : option hook;
  canSyncInternalInvitation : option hook;
  canReinvite : option hook
}.

(** ** Calls on the external [Vortex] client, faults and responses *)

Record JwtUser : Type := {
  jwt_id : str;
  jwt_email : str;
  jwt_userName : option str;
  jwt_userAvatarUrl : option str;
  jwt_adminScopes : option (list str);
  jwt_allowedEmailDomains : option (list str)
}.

Record JwtParams : Type := {
  jwt_user : JwtUser;
  jwt_attributes : option jvalue
}.

Inductive call : Type :=
| GetInvitationsByTarget (targetType targetValue : str)
| GetInvitation (invitationId : str)
| RevokeInvitation (invitationId : str)
| AcceptInvitations (invitationIds : list str) (acceptData : jvalue)
| GetInvitationsByGroup (groupType groupId : str)
| DeleteInvitationsByGroup (groupType groupId : str)
| Reinvite (invitationId : str)
| SyncInternalInvitation (creatorId targetValue action componentId : str)
| GenerateJwt (p : JwtParams).

(** A thrown value: an [Error] with its message, or any other value. *)
Inductive fault : Type :=
| FError (message : str)
| FOther (v : jvalue).

Inductive delegate_outcome : Type :=
| DReturns (v : jvalue)
| DThrows (f : fault).

Record response : Type := {
  status : N;
  payload : jvalue
}.

(** [createErrorResponse(res, message, status)] *)
Definition createErrorResponse (message : str) (st : N) : response :=
  {| status := st; payload := obj [("error", JStr message)] |}.

(** The same with a message literal. *)
Definition errorResponse (message : string) (st : N) : response :=
  createErrorResponse (of_string message) st.

(** [createApiResponse(res, data)] with the default status 200. *)
Definition createApiResponse (data : jvalue) : response :=
  {| status := 200; payload := data |}.

(** Observable steps of a request: the identity hook consulted, an
    access-control hook evaluated (with its answer), a call on the
    external client, a [console.error] line. *)
Inductive event : Type :=
| EvAuthenticate
| EvHook (allowed : bool)
| EvCall (c : call)
| EvLog (label : string) (f : fault).

(** ** A small exception-and-trace monad for the [async] handler bodies *)

Inductive result (A : Type) : Type :=
| Ret (a : A)
| Thrown (f : fault).
Arguments Ret {A} a.
Arguments Thrown {A} f.

Definition M (A : Type) : Type := list event -> result A * list event.

Definition ret {A} (a : A) : M A := fun tr => (Ret a, tr).

Definition bind {A B} (m : M A) (k : A -> M B) : M B :=
  fun tr => match m tr with
            | (Ret a, tr') => k a tr'
            | (Thrown f, tr') => (Thrown f, tr')
            end.

Notation "'let*' x ':=' m 'in' k" := (bind m (fun x => k))
  (at level 200, x name, m at level 100, k at level 200).

Definition throw {A} (f : fault) : M A := fun tr => (Thrown f, tr).

Definition lift {A} (r : result A) : M A := fun tr => (r, tr).

Definition emit (e : event) : M unit := fun tr => (Ret tt, (tr ++ [e])%list).

(** [try { m } catch (error) { h(error) }] *)
Definition try_catch {A} (m : M A) (h : fault -> M A) : M A :=
  fun tr => match m tr with
            | (Ret a, tr') => (Ret a, tr')
            | (Thrown f, tr') => h f tr'
            end.

Fixpoint mapR {A B} (f : A -> result B) (l : list A) : result (list B) :=
  match l with
  | [] => Ret []
  | x :: l' =>
      match f x with
      | Ret y => match mapR f l' with
                 | Ret ys => Ret (y :: ys)
                 | Thrown e => Thrown e
                 end
      | Thrown e => Thrown e
      end
  end.

(** ** utils.ts *)

Definition lookup_key {A} (k : string) (l : list (str * A)) : option A :=
  match find (fun kv => str_eqb (fst kv) (of_string k)) l with
  | Some (_, v) => Some v
  | None => None
  end.

(** [getQueryParam(request, param)] *)
Definition getQueryParam (req : request) (p : string) : option str :=
  match lookup_key p (query req) with
  | Some (JStr s) => Some s
  | Some (JArr (JStr s :: _)) => Some s
  | _ => None
  end.

(** [getRouteParam(request, param)]: Express route parameters are strings. *)
Definition getRouteParam (req : request) (p : string) : option str :=
  lookup_key p (params req).

(** [parseRequestBody(request)] *)
Definition parseRequestBody (req : request) : M jvalue :=
  if truthy (body req) then ret (body req)
  else throw (FError (of_string "Request body is empty or not parsed")).

(** [sanitizeInput] applied to a value of unknown type taken from a parsed
    body: a falsy value gives [null]; a truthy non-string has no [trim]
    method, so the call throws a [TypeError]. *)
Definition sanitizeValue (v : jvalue) : result (option str) :=
  if negb (truthy v) then Ret None
  else match v with
       | JStr s => Ret (sanitizeInput (Some s))
       | _ => Thrown (FError (of_string "input.trim is not a function"))
       end.

(** A [string | null] as a JavaScript value. *)
Definition to_js (o : option str) : jvalue :=
  match o with
  | Some s => JStr s
  | None => JNull
  end.

(** [.filter((id): id is string => Boolean(id))] *)
Fixpoint keep_truthy (l : list (option str)) : list str :=
  match l with
  | [] => []
  | Some ((_ :: _) as s) :: l' => s :: keep_truthy l'
  | _ :: l' => keep_truthy l'
  end.

Definition method_is (req : request) (m : string) : bool :=
  str_eqb (method req) (of_string m).

(** ** config.ts

    [getVortexConfig] and [authenticateRequest] live in [config.ts], which
    is not among the sources; the configuration is an argument of every
    handler. *)

(** Modelled from the spec: [authenticateRequest] (config.ts, not in the
    sources).  Section 4.2 of the spec: the identity is resolved by the
    single configured callback, and no callback means no identity. *)
Definition authenticateRequest (cfg : VortexConfig) (req : request)
  : M (option AuthenticatedUser) :=
  let* _ := emit EvAuthenticate in
  ret (match authenticateUser cfg with
       | Some f => f req
       | None => None
       end).

Definition configureHooksMessage : string :=
  "Access denied. Configure access control hooks for invitation endpoints.".

(** The access check each invitation handler repeats:
    [if (config.canX) { if (!await config.canX(...)) return 403 }
     else if (!user) return 403], then the rest [k] of the handler. *)
Definition access_gate (h : option hook) (req : request)
    (user : option AuthenticatedUser) (res : resource) (k : M response)
  : M response :=
  match h with
  | Some f =>
      let hasAccess := f req user res in
      let* _ := emit (EvHook hasAccess) in
      if hasAccess then k else ret (errorResponse "Access denied" 403)
  | None =>
      match user with
      | None => ret (errorResponse configureHooksMessage 403)
      | Some _ => k
      end
  end.

Definition genericErrorMessage : string :=
  "An error occurred while processing your request".

(** The [catch] block of every invitation handler. *)
Definition log_and_fail (label : string) (f : fault) : M response :=
  let* _ := emit (EvLog label f) in
  ret (errorResponse genericErrorMessage 500).

(** Run a handler from an empty trace.  Express 5 sends a rejected handler
    promise to its default error handler (status 500); no handler below
    lets a fault escape. *)
Definition run (m : M response) : response * list event :=
  match m [] with
  | (Ret r, tr) => (r, tr)
  | (Thrown _, tr) => ({| status := 500; payload := JUndef |}, tr)
  end.

(** ** The handlers *)

Section Handlers.

(** What the external [Vortex] client does on each call. *)
Variable vortex : call -> delegate_outcome.

(** [await vortex.m(...)]: the call is recorded, then returns or throws. *)
Definition invoke (c : call) : M jvalue :=
  fun tr =>
    let tr' := (tr ++ [EvCall c])%list in
    match vortex c with
    | DReturns v => (Ret v, tr')
    | DThrows f => (Thrown f, tr')
    end.

Definition methodNotAllowed : response := errorResponse "Method not allowed" 405.

(** handlers/invitations.ts: [handleGetInvitationsByTarget] *)
Definition handleGetInvitationsByTarget (cfg : VortexConfig) (req : request)
  : M response :=
  try_catch
    (if negb (method_is req "GET") then ret methodNotAllowed else
     let* user := authenticateRequest cfg req in
     access_gate (canAccessInvitationsByTarget cfg) req user RNone
       (let targetType := sanitizeInput (getQueryParam req "targetType") in
        let targetValue := sanitizeInput (getQueryParam req "targetValue") in
        match targetType, targetValue with
        | Some ((_ :: _) as tt), Some ((_ :: _) as tv) =>
            if negb (includes ["email"; "username"; "phoneNumber"] tt)
            then ret (errorResponse
                        "targetType must be email, username, or phoneNumber" 400)
            else
              let* invitations := invoke (GetInvitationsByTarget tt tv) in
              ret (createApiResponse (obj [("invitations", invitations)]))
        | _, _ =>
            ret (errorResponse
                   "targetType and targetValue query parameters are required" 400)
        end))
    (log_and_fail "Error in handleGetInvitationsByTarget:").

(** The shape shared by [handleGetInvitation], [handleRevokeInvitation] and
    [handleReinvite]: sanitize the [invitationId] route parameter, resolve
    the user, check the hook, call the client. *)
Definition by_id_handler (verb : string) (label : string)
    (h : VortexConfig -> option hook) (mk : str -> call)
    (reply : jvalue -> response) (cfg : VortexConfig) (req : request)
  : M response :=
  try_catch
    (if negb (method_is req verb) then ret methodNotAllowed else
     let invitationId := getRouteParam req "invitationId" in
     let sanitizedId := sanitizeInput invitationId in
     match sanitizedId with
     | Some ((_ :: _) as sid) =>
         let* user := authenticateRequest cfg req in
         access_gate (h cfg) req user (RInvitation sid)
           (let* r := invoke (mk sid) in ret (reply r))
     | _ => ret (errorResponse "Invalid invitation ID" 400)
     end)
    (log_and_fail label).

Definition handleGetInvitation : VortexConfig -> request -> M response :=
  by_id_handler "GET" "Error in handleGetInvitation:"
    canAccessInvitation GetInvitation createApiResponse.

Definition handleRevokeInvitation : VortexConfig -> request -> M response :=
  by_id_handler "DELETE" "Error in handleRevokeInvitation:"
    canDeleteInvitation RevokeInvitation
    (fun _ => createApiResponse (obj [("success", JBool true)])).

Definition handleReinvite : VortexConfig -> request -> M response :=
  by_id_handler "POST" "Error in handleReinvite:"
    canReinvite Reinvite createApiResponse.

(** The shape shared by [handleGetInvitationsByGroup] and
    [handleDeleteInvitationsByGroup]. *)
Definition by_group_handler (verb : string) (label : string)
    (h : VortexConfig -> option hook) (mk : str -> str -> call)
    (reply : jvalue -> response) (cfg : VortexConfig) (req : request)
  : M response :=
  try_catch
    (if negb (method_is req verb) then ret methodNotAllowed else
     let sanitizedGroupType := sanitizeInput (getRouteParam req "groupType") in
     let sanitizedGroupId := sanitizeInput (getRouteParam req "groupId") in
     match sanitizedGroupType, sanitizedGroupId with
     | Some ((_ :: _) as gt), Some ((_ :: _) as gid) =>
         let* user := authenticateRequest cfg req in
         access_gate (h cfg) req user (RGroup gt gid)
           (let* r := invoke (mk gt gid) in ret (reply r))
     | _, _ => ret (errorResponse "Invalid group parameters" 400)
     end)
    (log_and_fail label).

Definition handleGetInvitationsByGroup : VortexConfig -> request -> M response :=
  by_group_handler "GET" "Error in handleGetInvitationsByGroup:"
    canAccessInvitationsByGroup GetInvitationsByGroup
    (fun invitations => createApiResponse (obj [("invitations", invitations)])).

Definition handleDeleteInvitationsByGroup : VortexConfig -> request -> M response :=
  by_group_handler "DELETE" "Error in handleDeleteInvitationsByGroup:"
    canDeleteInvitationsByGroup DeleteInvitationsByGroup
    (fun _ => createApiResponse (obj [("success", JBool true)])).

(** [v ? sanitizeInput(v) : undefined] *)
Definition optional_sanitized (v : jvalue) : M jvalue :=
  if truthy v then let* s := lift (sanitizeValue v) in ret (to_js s)
  else ret JUndef.

(** The [if (user) { ... }] branch of [handleAcceptInvitations]: a 400
    response on the left, [acceptData] on the right. *)
Definition accept_user_data (user : jvalue) : M (response + jvalue) :=
  let email := get_field user "email" in
  let phone := get_field user "phone" in
  let name := get_field user "name" in
  if negb (truthy email) && negb (truthy phone)
  then ret (inl (errorResponse "user must have either email or phone" 400))
  else
    let* e := optional_sanitized email in
    let* p := optional_sanitized phone in
    let* n := optional_sanitized name in
    ret (inr (obj [("email", e); ("phone", p); ("name", n)])).

(** The legacy [else] branch: [target] with [type] and [value]. *)
Definition accept_target_data (target : jvalue) : M (response + jvalue) :=
  let ty := get_field target "type" in
  let value := get_field target "value" in
  if negb (truthy ty) || negb (truthy value)
  then ret (inl (errorResponse "target must have type and value properties" 400))
  else if negb (includes_v ["email"; "username"; "phoneNumber"; "phone"] ty)
  then ret (inl (errorResponse
                   "target.type must be email, username, phoneNumber, or phone" 400))
  else
    (* [value: sanitizeInput(targetObj.value) || targetObj.value] *)
    let* s := lift (sanitizeValue value) in
    ret (inr (obj [("type", ty);
                   ("value", if str_truthy s then to_js s else value)])).

(** handlers/invitations.ts: [handleAcceptInvitations] *)
Definition handleAcceptInvitations (cfg : VortexConfig) (req : request)
  : M response :=
  try_catch
    (if negb (method_is req "POST") then ret methodNotAllowed else
     let* body := parseRequestBody req in
     let invitationIds := get_field body "invitationIds" in
     let target := get_field body "target" in
     let user := get_field body "user" in
     match invitationIds with
     | JArr ((_ :: _) as ids) =>
         let* sanitized := lift (mapR sanitizeValue ids) in
         let sanitizedIds := keep_truthy sanitized in
         if negb (Nat.eqb (List.length sanitizedIds) (List.length ids))
         then ret (errorResponse "Invalid invitation IDs provided" 400)
         else if negb (truthy user) && negb (truthy target)
         then ret (errorResponse "Either user or target must be provided" 400)
         else
           let* acceptData :=
             (if truthy user then accept_user_data user
              else accept_target_data target) in
           match acceptData with
           | inl r => ret r
           | inr data =>
               let* authenticatedUser := authenticateRequest cfg req in
               access_gate (canAcceptInvitations cfg) req authenticatedUser
                 (RAccept sanitizedIds target user)
                 (let* result := invoke (AcceptInvitations sanitizedIds data) in
                  ret (createApiResponse result))
           end
     | _ => ret (errorResponse "invitationIds must be a non-empty array" 400)
     end)
    (log_and_fail "Error in handleAcceptInvitations:").

(** A double quote character. *)
Definition dq : string := String (ascii_of_nat 34) EmptyString.

Definition actionMessage : string :=
  "action is required and must be " ++ dq ++ "accepted" ++ dq ++ " or "
  ++ dq ++ "declined" ++ dq.

(** handlers/invitations.ts: [handleSyncInternalInvitation].  The hook and
    the client receive [sanitizeInput(x)!] of strings already known to be
    non-empty, that is [sanitize_str x]. *)
Definition handleSyncInternalInvitation (cfg : VortexConfig) (req : request)
  : M response :=
  try_catch
    (if negb (method_is req "POST") then ret methodNotAllowed else
     let* body := parseRequestBody req in
     match get_field body "creatorId" with
     | JStr ((_ :: _) as creatorId) =>
       match get_field body "targetValue" with
       | JStr ((_ :: _) as targetValue) =>
         (* [!action || !['accepted', 'declined'].includes(action)]: only
            those two strings pass *)
         match get_field body "action" with
         | JStr action =>
           if negb (includes ["accepted"; "declined"] action)
           then ret (errorResponse
                       actionMessage 400)
           else
           match get_field body "componentId" with
           | JStr ((_ :: _) as componentId) =>
               let* user := authenticateRequest cfg req in
               access_gate (canSyncInternalInvitation cfg) req user
                 (RSync (sanitize_str creatorId) (sanitize_str targetValue)
                        action (sanitize_str componentId))
                 (let* result :=
                    invoke (SyncInternalInvitation (sanitize_str creatorId)
                              (sanitize_str targetValue) action
                              (sanitize_str componentId)) in
                  ret (createApiResponse result))
           | _ => ret (errorResponse
                         "componentId is required and must be a string" 400)
           end
         | _ => ret (errorResponse
                       actionMessage 400)
         end
       | _ => ret (errorResponse "targetValue is required and must be a string" 400)
       end
     | _ => ret (errorResponse "creatorId is required and must be a string" 400)
     end)
    (log_and_fail "Error in handleSyncInternalInvitation:").

(** [...(x && { k: x })] for an optional string field. *)
Definition keep_if_truthy (o : option str) : option str :=
  if str_truthy o then o else None.

(** [...(xs && xs.length > 0 && { k: xs })] for an optional array field. *)
Definition keep_if_nonempty (o : option (list str)) : option (list str) :=
  match o with
  | Some (_ :: _) => o
  | _ => None
  end.

(** The [jwtParams] object built by [handleJwtGeneration]. *)
Definition buildJwtParams (u : AuthenticatedUser) (id email : str) : JwtParams :=
  {| jwt_user :=
       {| jwt_id := id;
          jwt_email := email;
          jwt_userName := keep_if_truthy (userName u);
          jwt_userAvatarUrl := keep_if_truthy (userAvatarUrl u);
          jwt_adminScopes := keep_if_nonempty (adminScopes u);
          jwt_allowedEmailDomains := keep_if_nonempty (allowedEmailDomains u) |};
     jwt_attributes := if truthy (attributes u) then Some (attributes u) else None |}.

(** [error instanceof Error ? error.message : 'An error occurred'] *)
Definition jwt_error_message (error : fault) : str :=
  match error with
  | FError m => m
  | FOther _ => of_string "An error occurred"
  end.

(** handlers/jwt.ts: [handleJwtGeneration] *)
Definition handleJwtGeneration (cfg : VortexConfig) (req : request) : M response :=
  try_catch
    (if negb (method_is req "POST") then ret methodNotAllowed else
     match authenticateUser cfg with
     | None =>
         ret (errorResponse
                "JWT generation requires authentication configuration. Please configure authenticateUser hook."
                500)
     | Some authenticate =>
         let* _ := emit EvAuthenticate in
         match authenticate req with
         | None => ret (errorResponse "Unauthorized" 401)
         | Some authenticatedUser =>
             match userId authenticatedUser, userEmail authenticatedUser with
             | Some ((_ :: _) as id), Some ((_ :: _) as email) =>
                 let* jwt := invoke (GenerateJwt (buildJwtParams authenticatedUser id email)) in
                 ret (createApiResponse (obj [("jwt", jwt)]))
             | _, _ =>
                 ret (errorResponse
                        "Invalid user format: must provide userId and userEmail" 500)
             end
         end
     end)
    (fun error =>
       let message := jwt_error_message error in
       ret (createErrorResponse message 500)).

End Handlers.

(** ** Auxiliary definitions for the statements *)

Definition handler := (call -> delegate_outcome) -> VortexConfig -> request -> M response.

(** The eight invitation handlers, each with the label of its
    [console.error] line and the configuration key of its hook. *)
Definition invitation_handlers
  : list (string * (VortexConfig -> option hook) * handler) :=
  [("Error in handleGetInvitationsByTarget:", canAccessInvitationsByTarget,
     handleGetInvitationsByTarget);
   ("Error in handleGetInvitation:", canAccessInvitation, handleGetInvitation);
   ("Error in handleRevokeInvitation:", canDeleteInvitation, handleRevokeInvitation);
   ("Error in handleAcceptInvitations:", canAcceptInvitations, handleAcceptInvitations);
   ("Error in handleGetInvitationsByGroup:", canAccessInvitationsByGroup,
     handleGetInvitationsByGroup);
   ("Error in handleDeleteInvitationsByGroup:", canDeleteInvitationsByGroup,
     handleDeleteInvitationsByGroup);
   ("Error in handleSyncInternalInvitation:", canSyncInternalInvitation,
     handleSyncInternalInvitation);
   ("Error in handleReinvite:", canReinvite, handleReinvite)].

(** The identity [authenticateRequest] resolves. *)
Definition resolve (cfg : VortexConfig) (req : request) : option AuthenticatedUser :=
  match authenticateUser cfg with
  | Some f => f req
  | None => None
  end.

(** The access check lets the request through. *)
Definition gate_allows (h : option hook) (cfg : VortexConfig) (req : request)
    (res : resource) : Prop :=
  match h with
  | Some f => f req (resolve cfg req) res = true
  | None => resolve cfg req <> None
  end.

(** A field that [sanitizeInput] can take without throwing: a string or a
    falsy value. *)
Definition str_or_falsy (v : jvalue) : bool :=
  match v with
  | JStr _ => true
  | _ => negb (truthy v)
  end.

(** No call on the external client in a trace. *)
Definition no_call (tr : list event) : Prop := forall c, ~ In (EvCall c) tr.

(** ** Concrete configurations and requests used by the examples *)

Definition demo_user : AuthenticatedUser :=
  {| userId := Some (of_string "u1"); userEmail := Some (of_string "a@b.com");
     userName := None; userAvatarUrl := None; adminScopes := None;
     allowedEmailDomains := None; attributes := JUndef |}.

(** An identity with every optional field: an empty display name and an
    empty admin-scope list, which are not forwarded, and an avatar and a
    domain list, which are. *)
Definition demo_user_full : AuthenticatedUser :=
  {| userId := Some (of_string "u1"); userEmail := Some (of_string "a@b.com");
     userName := Some []; userAvatarUrl := Some (of_string "https://img/u1.png");
     adminScopes := Some []; allowedEmailDomains := Some [of_string "acme.com"];
     attributes := JUndef |}.

(** The same hook [h] under every key. *)
Definition demo_config (au : option (request -> option AuthenticatedUser))
    (h : option hook) : VortexConfig :=
  {| apiKey := of_string "VRTX.key";
     authenticateUser := au;
     canAccessInvitationsByTarget := h; canAccessInvitation := h;
     canDeleteInvitation := h; canAcceptInvitations := h;
     canAccessInvitationsByGroup := h; canDeleteInvitationsByGroup := h;
     canSyncInternalInvitation := h; canReinvite := h |}.

Definition allow_all : hook := fun _ _ _ => true.

Definition deny_all : hook := fun _ _ _ => false.

Definition signed_in : option (request -> option AuthenticatedUser) :=
  Some (fun _ => Some demo_user).

Definition demo_request (m : string) (q : list (string * jvalue))
    (p : list (string * string)) (b : jvalue) : request :=
  {| method := of_string m;
     query := map (fun kv => (of_string (fst kv), snd kv)) q;
     params := map (fun kv => (of_string (fst kv), of_string (snd kv))) p;
     body := b |}.

Definition signed_in_full : option (request -> option AuthenticatedUser) :=
  Some (fun _ => Some demo_user_full).

Definition client_ok : call -> delegate_outcome := fun _ => DReturns (js "ok").

Definition client_fails : call -> delegate_outcome :=
  fun _ => DThrows (FError (of_string "boom")).

Definition accept_request (shape : list (string * jvalue)) : request :=
  demo_request "POST" [] [] (obj (("invitationIds", JArr [js "i1"]) :: shape)).

(** ** routes.ts *)

Inductive route_key : Type :=
| JWT
| INVITATIONS
| INVITATION
| INVITATIONS_ACCEPT
| INVITATIONS_BY_GROUP
| INVITATION_REINVITE
| SYNC_INTERNAL_INVITATION.

(** [VORTEX_ROUTES] *)
Definition VORTEX_ROUTES (k : route_key) : string :=
  match k with
  | JWT => "/jwt"
  | INVITATIONS => "/invitations"
  | INVITATION => "/invitations/:invitationId"
  | INVITATIONS_ACCEPT => "/invitations/accept"
  | INVITATIONS_BY_GROUP => "/invitations/by-group/:groupType/:groupId"
  | INVITATION_REINVITE => "/invitations/:invitationId/reinvite"
  | SYNC_INTERNAL_INVITATION => "/invitation-actions/sync-internal-invitation"
  end.

(** [s.replace(/\/$/, '')]: drop one slash (code unit 47) at the very end. *)
Definition strip_trailing_slash (s : str) : str :=
  match rev s with
  | 47 :: r => rev r
  | _ => s
  end.

(** [createVortexApiPath(baseUrl, route)] *)
Definition createVortexApiPath (baseUrl : str) (route : route_key) : str :=
  (strip_trailing_slash baseUrl ++ of_string (VORTEX_ROUTES route))%list.

(** The object returned by [createVortexRoutes]; each [createVortex...Route]
    returns a function that forwards [req] and [res] to one handler. *)
Record VortexRoutes : Type := {
  r_jwt : handler;
  r_invitations : handler;
  r_invitation_get : handler;
  r_invitation_delete : handler;
  r_invitationsAccept : handler;
  r_invitationsByGroup_get : handler;
  r_invitationsByGroup_delete : handler;
  r_invitationReinvite : handler;
  r_syncInternalInvitation : handler
}.

Definition createVortexRoutes : VortexRoutes :=
  {| r_jwt := handleJwtGeneration;
     r_invitations := handleGetInvitationsByTarget;
     r_invitation_get := handleGetInvitation;
     r_invitation_delete := handleRevokeInvitation;
     r_invitationsAccept := handleAcceptInvitations;
     r_invitationsByGroup_get := handleGetInvitationsByGroup;
     r_invitationsByGroup_delete := handleDeleteInvitationsByGroup;
     r_invitationReinvite := handleReinvite;
     r_syncInternalInvitation := handleSyncInternalInvitation |}.

Inductive verb : Type := VPost | VGet | VDelete.

(** The [req.method] an Express registration method answers. *)
Definition verb_name (v : verb) : string :=
  match v with
  | VPost => "POST"
  | VGet => "GET"
  | VDelete => "DELETE"
  end.

(** A registration [router.post(path, handler)] and the like. *)
Definition registration : Type := verb * str * handler.

(** The registrations [createVortexRouter] makes, in order. *)
Definition createVortexRouter : list registration :=
  let routes := createVortexRoutes in
  [(VPost, of_string (VORTEX_ROUTES JWT), r_jwt routes);
   (VGet, of_string (VORTEX_ROUTES INVITATIONS), r_invitations routes);
   (VGet, of_string (VORTEX_ROUTES INVITATION), r_invitation_get routes);
   (VDelete, of_string (VORTEX_ROUTES INVITATION), r_invitation_delete routes);
   (VPost, of_string (VORTEX_ROUTES INVITATIONS_ACCEPT), r_invitationsAccept routes);
   (VGet, of_string (VORTEX_ROUTES INVITATIONS_BY_GROUP), r_invitationsByGroup_get routes);
   (VDelete, of_string (VORTEX_ROUTES INVITATIONS_BY_GROUP),
     r_invitationsByGroup_delete routes);
   (VPost, of_string (VORTEX_ROUTES INVITATION_REINVITE), r_invitationReinvite routes);
   (VPost, of_string (VORTEX_ROUTES SYNC_INTERNAL_INVITATION),
     r_syncInternalInvitation routes)].

(** The registrations [registerVortexRoutes(app, basePath)] makes on [app],
    in order; [None] is an omitted [basePath] (default [/api/vortex]). *)
Definition registerVortexRoutes (basePath : option str) : list registration :=
  let basePath := match basePath with
                  | Some b => b
                  | None => of_string "/api/vortex"
                  end in
  let routes := createVortexRoutes in
  let cleanBasePath := strip_trailing_slash basePath in
  [(VPost, (cleanBasePath ++ of_string (VORTEX_ROUTES JWT))%list, r_jwt routes);
   (VGet, (cleanBasePath ++ of_string (VORTEX_ROUTES INVITATIONS))%list, r_invitations routes);
   (VGet, (cleanBasePath ++ of_string (VORTEX_ROUTES INVITATION))%list, r_invitation_get routes);
   (VDelete, (cleanBasePath ++ of_string (VORTEX_ROUTES INVITATION))%list,
     r_invitation_delete routes);
   (VPost, (cleanBasePath ++ of_string (VORTEX_ROUTES INVITATIONS_ACCEPT))%list,
     r_invitationsAccept routes);
   (VGet, (cleanBasePath ++ of_string (VORTEX_ROUTES INVITATIONS_BY_GROUP))%list,
     r_invitationsByGroup_get routes);
   (VDelete, (cleanBasePath ++ of_string (VORTEX_ROUTES INVITATIONS_BY_GROUP))%list,
     r_invitationsByGroup_delete routes);
   (VPost, (cleanBasePath ++ of_string (VORTEX_ROUTES INVITATION_REINVITE))%list,
     r_invitationReinvite routes);
   (VPost, (cleanBasePath ++ of_string (VORTEX_ROUTES SYNC_INTERNAL_INVITATION))%list,
     r_syncInternalInvitation routes)].

(** ** Auxiliary definitions for the extra statements *)

(** A string as [sanitizeInput] leaves it when it is truthy: non-empty,
    none of the four stripped characters, at most 1000 code units. *)
Definition clean (s : str) : Prop :=
  s <> [] /\ (forall c, In c s -> is_xss c = false) /\ (List.length s <= 1000)%nat.

(** The identifier arguments of a client call are all [clean]: the target
    kind and value, the invitation id or ids, the group type and id.  The
    [acceptData] of an accept call is not constrained. *)
Definition call_args_clean (c : call) : Prop :=
  match c with
  | GetInvitationsByTarget a b => clean a /\ clean b
  | GetInvitation a | RevokeInvitation a | Reinvite a => clean a
  | AcceptInvitations ids _ => Forall clean ids
  | GetInvitationsByGroup a b | DeleteInvitationsByGroup a b => clean a /\ clean b
  | SyncInternalInvitation _ _ _ _ | GenerateJwt _ => False
  end.

(** The invitation handlers that validate their input before they resolve
    the identity (all but [handleGetInvitationsByTarget]). *)
Definition validate_first_handlers : list handler :=
  [handleGetInvitation; handleRevokeInvitation; handleAcceptInvitations;
   handleGetInvitationsByGroup; handleDeleteInvitationsByGroup;
   handleSyncInternalInvitation; handleReinvite].

(** The handlers whose client calls carry only sanitized identifiers. *)
Definition sanitizing_handlers : list handler :=
  [handleGetInvitationsByTarget; handleGetInvitation; handleRevokeInvitation;
   handleAcceptInvitations; handleGetInvitationsByGroup;
   handleDeleteInvitationsByGroup; handleReinvite].

(** All nine handlers. *)
Definition all_handlers : list handler :=
  [handleJwtGeneration; handleGetInvitationsByTarget; handleGetInvitation;
   handleRevokeInvitation; handleAcceptInvitations; handleGetInvitationsByGroup;
   handleDeleteInvitationsByGroup; handleSyncInternalInvitation; handleReinvite].

Definition is_call (e : event) : bool :=
  match e with EvCall _ => true | _ => false end.

Definition is_authenticate (e : event) : bool :=
  match e with EvAuthenticate => true | _ => false end.

(** A field of the user shape of [acceptData]: the sanitized string, or
    [undefined] for a falsy field. *)
Definition accept_user_field (v : jvalue) : jvalue :=
  match v with
  | JStr ((_ :: _) as s) => JStr (sanitize_str s)
  | _ => JUndef
  end.

(** The facts every handler keeps, whatever the request: the status is one
    of six, every non-200 answer is an error object, a 200 answer is exactly
    a client call that returned, and the client is called and the identity
    resolved at most once. *)
Definition common_facts (vortex : call -> delegate_outcome) (r : response)
    (tr : list event) : Prop :=
  In (status r) [200; 400; 401; 403; 405; 500]
  /\ (status r <> 200 -> exists m, payload r = obj [("error", JStr m)])
  /\ (status r = 200 <-> exists c v, In (EvCall c) tr /\ vortex c = DReturns v)
  /\ (List.length (filter is_call tr) <= 1)%nat
  /\ (List.length (filter is_authenticate tr) <= 1)%nat.

Definition validates_first (r : response) (tr : list event) : Prop :=
  status r = 400 -> tr = [].

Definition sanitized_calls (tr : list event) : Prop :=
  forall c, In (EvCall c) tr -> call_args_clean c.

(** ** Lemmas on strings *)

Lemma sanitize_str_no_xss (s : str) (c : N) :
  In c (sanitize_str s) -> is_xss c = false.
Proof.
  unfold sanitize_str, substring0, strip_xss.
  intros Hin.
  assert (Hf : In c (filter (fun c => negb (is_xss c)) (trim s))).
  { rewrite <- (firstn_skipn 1000 (filter _ _)).
    apply in_or_app. now left. }
  apply filter_In in Hf as [_ Hc].
  now apply negb_true_iff in Hc.
Qed.

Lemma sanitize_str_length (s : str) : (List.length (sanitize_str s) <= 1000)%nat.
Proof. unfold sanitize_str, substring0. apply firstn_le_length. Qed.

(** ** Running the handlers *)

Lemma run_try_log (m : M response) (label : string) :
  run (try_catch m (log_and_fail label)) =
  match m [] with
  | (Ret r, tr) => (r, tr)
  | (Thrown f, tr) => (errorResponse genericErrorMessage 500, (tr ++ [EvLog label f])%list)
  end.
Proof. unfold run, try_catch, log_and_fail, bind, emit, ret. now destruct (m []) as [[r|f] tr]. Qed.

(** Unfold the monad and the handler bodies, and nothing else. *)
Ltac reduce_handler :=
  cbv beta iota zeta delta [run handleGetInvitationsByTarget handleGetInvitation
    handleRevokeInvitation handleReinvite by_id_handler
    handleGetInvitationsByGroup handleDeleteInvitationsByGroup
    by_group_handler handleAcceptInvitations accept_user_data
    accept_target_data optional_sanitized handleSyncInternalInvitation
    handleJwtGeneration try_catch log_and_fail access_gate
    authenticateRequest parseRequestBody invoke lift bind emit ret
    throw app fst snd] in *.

(** Equations between pairs and results left by the case analysis. *)
Ltac clean_eqs :=
  repeat match goal with
         | H : (_, _) = (_, _) |- _ => inversion H; clear H
         | H : Ret _ = Ret _ |- _ => inversion H; clear H
         | H : Thrown _ = Thrown _ |- _ => inversion H; clear H
         | H : Ret _ = Thrown _ |- _ => discriminate H
         | H : Thrown _ = Ret _ |- _ => discriminate H
         end; subst.

(** Case analysis on every [match] and [if] left in a goal or hypothesis. *)
Ltac split_matches :=
  repeat (match goal with
          | |- context [match ?x with _ => _ end] => destruct x eqn:?
          | H : context [match ?x with _ => _ end] |- _ => destruct x eqn:?
          end; clean_eqs; reduce_handler).

(** Close the goals of one handler after [split_matches]. *)
Ltac finish_handler :=
  unfold resolve, no_call in *;
  repeat match goal with
         | H : ?x = Some _ |- context [?x] => rewrite H
         | H : authenticateUser ?k = _, H2 : context [authenticateUser ?k] |- _ =>
             rewrite H in H2
         end;
  cbn [In fst snd] in *;
  first [ reflexivity
        | discriminate
        | solve [intuition (try congruence)]
        | solve [left; eexists; split; [reflexivity | tauto]]
        | solve [right; split; [reflexivity | congruence]] ].

Ltac each_handler Hh :=
  simpl in Hh;
  repeat match type of Hh with
         | _ \/ _ => destruct Hh as [Hh | Hh]
         | False => destruct Hh
         | _ = _ => inversion Hh; subst; clear Hh
         end.

(** Every call on the client in an invitation handler's trace went through
    the access check: its hook answered [true], or no hook is configured
    and an identity was resolved. *)
Lemma invitation_call_passed_gate label hk H vortex cfg req c :
  In (label, hk, H) invitation_handlers ->
  In (EvCall c) (snd (run (H vortex cfg req))) ->
  (exists f, hk cfg = Some f /\ In (EvHook true) (snd (run (H vortex cfg req))))
  \/ (hk cfg = None /\ resolve cfg req <> None).
Proof.
  intros Hh Hin. each_handler Hh.
  all: reduce_handler; split_matches; finish_handler.
Qed.

(** A hook that answers [false] ends the request with a 403 and no call on
    the client. *)
Lemma invitation_hook_denial label hk H vortex cfg req f :
  In (label, hk, H) invitation_handlers ->
  hk cfg = Some f ->
  In (EvHook false) (snd (run (H vortex cfg req))) ->
  fst (run (H vortex cfg req)) = errorResponse "Access denied" 403
  /\ no_call (snd (run (H vortex cfg req))).
Proof.
  intros Hh Hf Hin. each_handler Hh.
  all: reduce_handler; split_matches; finish_handler.
Qed.

(** Without a hook and without an identity no call is made. *)
Lemma invitation_no_hook_no_identity label hk H vortex cfg req :
  In (label, hk, H) invitation_handlers ->
  hk cfg = None ->
  resolve cfg req = None ->
  no_call (snd (run (H vortex cfg req))).
Proof.
  intros Hh Hf Hr. each_handler Hh.
  all: reduce_handler; split_matches; finish_handler.
Qed.

(** ** Lemmas on the JWT handler *)

Lemma keep_if_truthy_spec (o : option str) (n : str) :
  keep_if_truthy o = Some n <-> o = Some n /\ n <> [].
Proof.
  unfold keep_if_truthy, keep_if_nonempty.
  destruct o as [[|x s]|]; simpl; split.
  all: try (intros [H1 H2]; first [discriminate | injection H1 as <-; congruence]).
  all: try (intros H; discriminate).
  all: intros H; injection H as <-; split; [reflexivity | discriminate].
Qed.

Lemma keep_if_nonempty_spec (o : option (list str)) (l : list str) :
  keep_if_nonempty o = Some l <-> o = Some l /\ l <> [].
Proof.
  unfold keep_if_truthy, keep_if_nonempty.
  destruct o as [[|x s]|]; simpl; split.
  all: try (intros [H1 H2]; first [discriminate | injection H1 as <-; congruence]).
  all: try (intros H; discriminate).
  all: intros H; injection H as <-; split; [reflexivity | discriminate].
Qed.

(** The only issuer call of [handleJwtGeneration] carries [buildJwtParams]
    of the resolved identity. *)
Lemma jwt_call_params vortex cfg req f au p :
  authenticateUser cfg = Some f -> f req = Some au ->
  In (EvCall (GenerateJwt p)) (snd (run (handleJwtGeneration vortex cfg req))) ->
  exists id email, userId au = Some id /\ userEmail au = Some email
                   /\ p = buildJwtParams au id email.
Proof.
  intros Ha Hf Hin. reduce_handler. rewrite Ha, Hf in Hin.
  destruct (method_is req "POST"); simpl in Hin; [| contradiction].
  destruct (userId au) as [[|x s]|] eqn:Hid, (userEmail au) as [[|y t]|] eqn:Hem;
    simpl in Hin; try (intuition discriminate).
  destruct (vortex _); simpl in Hin;
    (destruct Hin as [Hin | [Hin | Hin]]; [discriminate | | contradiction]);
    injection Hin as <-; eauto.
Qed.

(** ** Lemmas on the accept handler *)

Lemma get_field_defined_truthy (v : jvalue) (k : string) :
  get_field v k <> JUndef -> truthy v = true.
Proof. destruct v; simpl; congruence. Qed.

Lemma sanitizeValue_str_or_falsy (v : jvalue) f :
  str_or_falsy v = true -> sanitizeValue v <> Thrown f.
Proof.
  unfold sanitizeValue. destruct v; simpl; intros H;
    try destruct (negb _); try discriminate.
Qed.

(** Rewrite the facts established about an accept request into the
    unfolded handler: method, body, the id list and its sanitization. *)
Ltac accept_prep Hm Hids Hne Hl Hlen :=
  reduce_handler;
  rewrite Hm;
  rewrite (get_field_defined_truthy _ _ (ltac:(rewrite Hids; discriminate)));
  cbv beta iota; rewrite Hids;
  match type of Hids with
  | _ = JArr ?ids => destruct ids as [| ? ?]; [contradiction |]
  end;
  rewrite Hl; cbv beta iota;
  rewrite (proj2 (Nat.eqb_eq _ _) Hlen); cbv beta iota.

Lemma negb_andb_negb (a b : bool) : negb a && negb b = negb (a || b).
Proof. now destruct a, b. Qed.

(** Close the goals left by [split_matches] on the accept handler. *)
Ltac finish_accept :=
  unfold gate_allows in *; unfold resolve, no_call in *;
  repeat match goal with
         | H : authenticateUser ?k = _, H2 : context [authenticateUser ?k] |- _ =>
             rewrite H in H2
         | H : canAcceptInvitations ?k = _, H2 : context [canAcceptInvitations ?k] |- _ =>
             rewrite H in H2
         end;
  cbn [In fst snd negb andb orb] in *;
  first [ solve [exfalso; congruence]
        | match goal with
          | H : sanitizeValue ?v = Thrown ?f, H2 : str_or_falsy ?v = true |- _ =>
              exfalso; exact (sanitizeValue_str_or_falsy v f H2 H)
          end
        | solve [eexists; repeat (first [left; reflexivity | right])]
        | solve [repeat (first [left; reflexivity | right])] ].

(** ** Lemmas on routes.ts and utils.ts *)

Lemma strip_trailing_slash_snoc (s : str) :
  strip_trailing_slash (s ++ of_string "/")%list = s.
Proof.
  unfold strip_trailing_slash. simpl. rewrite rev_app_distr. simpl.
  apply rev_involutive.
Qed.

Lemma strip_trailing_slash_other (s : str) :
  last s 0 <> 47 -> strip_trailing_slash s = s.
Proof.
  unfold strip_trailing_slash. intros Hl.
  destruct (rev s) as [|c r] eqn:Hr; [reflexivity |].
  destruct (N.eq_dec c 47) as [-> | Hc].
  - exfalso. apply Hl.
    rewrite <- (rev_involutive s), Hr. simpl. apply last_last.
  - destruct c as [|p]; [reflexivity |].
    repeat (destruct p as [p|p|]; try reflexivity); exfalso; apply Hc; reflexivity.
Qed.

(** ** Lemmas on sanitized arguments *)

Lemma sanitizeInput_clean (o : option str) (x : N) (s : str) :
  sanitizeInput o = Some (x :: s) -> clean (x :: s).
Proof.
  destruct o as [[|y t]|]; simpl; try discriminate.
  intros H. injection H as H. rewrite <- H.
  split; [rewrite H; discriminate |].
  split; [apply sanitize_str_no_xss | apply sanitize_str_length].
Qed.

Lemma keep_truthy_clean (ids : list jvalue) (l : list (option str)) :
  mapR sanitizeValue ids = Ret l -> Forall clean (keep_truthy l).
Proof.
  revert l. induction ids as [|v ids IH]; intros l Hl; simpl in Hl.
  - injection Hl as <-. constructor.
  - destruct (sanitizeValue v) as [o|] eqn:Hv; [| discriminate].
    destruct (mapR sanitizeValue ids) as [l'|] eqn:Hr; [| discriminate].
    injection Hl as <-.
    specialize (IH l' eq_refl).
    destruct o as [[|x s]|]; simpl; try exact IH.
    constructor; [| exact IH].
    unfold sanitizeValue in Hv.
    destruct (negb (truthy v)); [discriminate |].
    destruct v; try discriminate.
    injection Hv as Hv. now apply (sanitizeInput_clean (Some s0)).
Qed.

(** Case analysis on a hypothesis [In (EvCall c) tr] for a concrete [tr]. *)
Ltac split_in Hin :=
  cbn [In] in Hin;
  repeat match type of Hin with
         | _ \/ _ => destruct Hin as [Hin | Hin]
         | False => destruct Hin
         | EvCall _ = EvCall _ => injection Hin as Hin; subst
         | _ = _ => discriminate Hin
         end.

(** ** Per-handler facts *)

(** Close every leaf of one handler for [common_facts], [validates_first]
    and [sanitized_calls]. *)
Ltac leaf_facts :=
  unfold common_facts, validates_first, sanitized_calls;
  unfold methodNotAllowed, errorResponse, createErrorResponse, createApiResponse;
  cbn [status payload fst snd];
  repeat split;
  first
    [ solve [cbn [In]; repeat (first [left; reflexivity | right])]
    | solve [intros Hn; first [exfalso; apply Hn; reflexivity | eexists; reflexivity]]
    | solve [intros Hs; first [ discriminate Hs
                              | do 2 eexists; split;
                                [cbn [In]; repeat (first [left; reflexivity | right])
                                | eassumption] ]]
    | solve [intros [c0 [v0 [Hin Hv]]]; first [reflexivity | split_in Hin; congruence]]
    | solve [cbn [filter is_call is_authenticate List.length]; lia]
    | solve [intros Hs; first [reflexivity | discriminate Hs]]
    | solve [intros c0 Hin; split_in Hin; cbn [call_args_clean];
             first [ eapply keep_truthy_clean; eassumption
                   | split; eapply sanitizeInput_clean; eassumption
                   | eapply sanitizeInput_clean; eassumption ]] ].

Ltac handler_facts := reduce_handler; split_matches; leaf_facts.

Lemma facts_jwt vortex cfg req :
  common_facts vortex (fst (run (handleJwtGeneration vortex cfg req)))
    (snd (run (handleJwtGeneration vortex cfg req))).
Proof. handler_facts. Qed.

Lemma facts_byTarget vortex cfg req :
  common_facts vortex (fst (run (handleGetInvitationsByTarget vortex cfg req)))
    (snd (run (handleGetInvitationsByTarget vortex cfg req)))
  /\ sanitized_calls (snd (run (handleGetInvitationsByTarget vortex cfg req))).
Proof. handler_facts. Qed.

Lemma facts_getInvitation vortex cfg req :
  common_facts vortex (fst (run (handleGetInvitation vortex cfg req)))
    (snd (run (handleGetInvitation vortex cfg req)))
  /\ validates_first (fst (run (handleGetInvitation vortex cfg req)))
       (snd (run (handleGetInvitation vortex cfg req)))
  /\ sanitized_calls (snd (run (handleGetInvitation vortex cfg req))).
Proof. handler_facts. Qed.

Lemma facts_revoke vortex cfg req :
  common_facts vortex (fst (run (handleRevokeInvitation vortex cfg req)))
    (snd (run (handleRevokeInvitation vortex cfg req)))
  /\ validates_first (fst (run (handleRevokeInvitation vortex cfg req)))
       (snd (run (handleRevokeInvitation vortex cfg req)))
  /\ sanitized_calls (snd (run (handleRevokeInvitation vortex cfg req))).
Proof. handler_facts. Qed.

Lemma facts_reinvite vortex cfg req :
  common_facts vortex (fst (run (handleReinvite vortex cfg req)))
    (snd (run (handleReinvite vortex cfg req)))
  /\ validates_first (fst (run (handleReinvite vortex cfg req)))
       (snd (run (handleReinvite vortex cfg req)))
  /\ sanitized_calls (snd (run (handleReinvite vortex cfg req))).
Proof. handler_facts. Qed.

Lemma facts_byGroup vortex cfg req :
  common_facts vortex (fst (run (handleGetInvitationsByGroup vortex cfg req)))
    (snd (run (handleGetInvitationsByGroup vortex cfg req)))
  /\ validates_first (fst (run (handleGetInvitationsByGroup vortex cfg req)))
       (snd (run (handleGetInvitationsByGroup vortex cfg req)))
  /\ sanitized_calls (snd (run (handleGetInvitationsByGroup vortex cfg req))).
Proof. handler_facts. Qed.

Lemma facts_deleteByGroup vortex cfg req :
  common_facts vortex (fst (run (handleDeleteInvitationsByGroup vortex cfg req)))
    (snd (run (handleDeleteInvitationsByGroup vortex cfg req)))
  /\ validates_first (fst (run (handleDeleteInvitationsByGroup vortex cfg req)))
       (snd (run (handleDeleteInvitationsByGroup vortex cfg req)))
  /\ sanitized_calls (snd (run (handleDeleteInvitationsByGroup vortex cfg req))).
Proof. handler_facts. Qed.

Lemma facts_sync vortex cfg req :
  common_facts vortex (fst (run (handleSyncInternalInvitation vortex cfg req)))
    (snd (run (handleSyncInternalInvitation vortex cfg req)))
  /\ validates_first (fst (run (handleSyncInternalInvitation vortex cfg req)))
       (snd (run (handleSyncInternalInvitation vortex cfg req))).
Proof. handler_facts. Qed.

Lemma facts_accept vortex cfg req :
  common_facts vortex (fst (run (handleAcceptInvitations vortex cfg req)))
    (snd (run (handleAcceptInvitations vortex cfg req)))
  /\ validates_first (fst (run (handleAcceptInvitations vortex cfg req)))
       (snd (run (handleAcceptInvitations vortex cfg req)))
  /\ sanitized_calls (snd (run (handleAcceptInvitations vortex cfg req))).
Proof. handler_facts. Qed.

(** Close a goal about one handler from its facts lemma. *)
Ltac by_facts vortex cfg req :=
  first
    [ solve [pose proof (facts_jwt vortex cfg req) as F;
             unfold common_facts, validates_first, sanitized_calls in F; tauto]
    | solve [pose proof (facts_byTarget vortex cfg req) as F;
             unfold common_facts, validates_first, sanitized_calls in F; tauto]
    | solve [pose proof (facts_getInvitation vortex cfg req) as F;
             unfold common_facts, validates_first, sanitized_calls in F; tauto]
    | solve [pose proof (facts_revoke vortex cfg req) as F;
             unfold common_facts, validates_first, sanitized_calls in F; tauto]
    | solve [pose proof (facts_reinvite vortex cfg req) as F;
             unfold common_facts, validates_first, sanitized_calls in F; tauto]
    | solve [pose proof (facts_byGroup vortex cfg req) as F;
             unfold common_facts, validates_first, sanitized_calls in F; tauto]
    | solve [pose proof (facts_deleteByGroup vortex cfg req) as F;
             unfold common_facts, validates_first, sanitized_calls in F; tauto]
    | solve [pose proof (facts_sync vortex cfg req) as F;
             unfold common_facts, validates_first, sanitized_calls in F; tauto]
    | solve [pose proof (facts_accept vortex cfg req) as F;
             unfold common_facts, validates_first, sanitized_calls in F; tauto] ].

(** ** Lemmas on inputs of the wrong type *)

Lemma str_or_falsy_false_truthy (v : jvalue) :
  str_or_falsy v = false -> truthy v = true.
Proof.
  unfold str_or_falsy. destruct v; intros H; try discriminate H.
  all: apply negb_false_iff; exact H.
Qed.

Lemma sanitizeValue_non_string (v : jvalue) :
  str_or_falsy v = false -> exists f, sanitizeValue v = Thrown f.
Proof.
  intros H. pose proof (str_or_falsy_false_truthy v H) as Ht.
  unfold sanitizeValue. rewrite Ht. destruct v; try discriminate; simpl; eauto.
Qed.

Lemma sanitizeValue_ret (v : jvalue) (o : option str) :
  sanitizeValue v = Ret o -> str_or_falsy v = true.
Proof.
  intros H. destruct (str_or_falsy v) eqn:E; [reflexivity |].
  destruct (sanitizeValue_non_string v E) as [f Hf]. congruence.
Qed.

Lemma mapR_thrown {A B} (g : A -> result B) (l : list A) (v : A) (f : fault) :
  In v l -> g v = Thrown f -> exists f', mapR g l = Thrown f'.
Proof.
  induction l as [|x l IH]; simpl; [intros [] |].
  intros [<- | Hin] Hg.
  - rewrite Hg. eauto.
  - destruct (g x); [| eauto].
    destruct (IH Hin Hg) as [f' ->]. eauto.
Qed.

Lemma includes_v_accept_truthy (v : jvalue) :
  includes_v ["email"; "username"; "phoneNumber"; "phone"] v = true -> truthy v = true.
Proof. destruct v as [| | | |[|c s]| |]; simpl; try discriminate; reflexivity. Qed.

Ltac finish_500 :=
  first
    [ solve [split; [reflexivity | intros c0 Hc; split_in Hc]]
    | solve [exfalso; cbn [negb andb orb] in *; discriminate]
    | solve [exfalso; match goal with
             | H : str_or_falsy ?v = false, H2 : truthy ?v = false |- _ =>
                 rewrite (str_or_falsy_false_truthy v H) in H2; discriminate H2
             | H : str_or_falsy ?v = false, H2 : sanitizeValue ?v = Ret _ |- _ =>
                 rewrite (sanitizeValue_ret _ _ H2) in H; discriminate H
             end] ].

Lemma optional_field_sanitized (v : jvalue) (o : option str) :
  truthy v = true -> sanitizeValue v = Ret o -> to_js o = accept_user_field v.
Proof.
  intros Ht. unfold sanitizeValue. rewrite Ht. simpl.
  destruct v as [| | | |[|x s]| |]; try discriminate; simpl.
  intros H. injection H as <-. reflexivity.
Qed.

Lemma optional_field_falsy (v : jvalue) :
  truthy v = false -> accept_user_field v = JUndef.
Proof. destruct v as [| | | |[|x s]| |]; simpl; try discriminate; reflexivity. Qed.

(** ** Claims *)

(** C1 (code bug).  Get-by-target runs its access check before it
    validates the query: with a hook that answers [true] and the query
    [targetType=carrier-pigeon&targetValue=x], the hook is consulted and
    says yes, yet the client is never called (400).  The other invitation
    handlers validate first; see [invitation_call_passed_gate] for the part
    of the claim that holds on every handler. *)
Theorem getByTarget_hook_true_then_400 vortex :
  run (handleGetInvitationsByTarget vortex (demo_config None (Some allow_all))
         (demo_request "GET" [("targetType", js "carrier-pigeon"); ("targetValue", js "x")]
            [] JUndef))
  = (errorResponse "targetType must be email, username, or phoneNumber" 400,
     [EvAuthenticate; EvHook true]).
Proof. reflexivity. Qed.

(** C2 (corrected).  A fault of the client is caught by the handler: the
    invitation handlers answer 500 with the fixed generic message and log
    the fault under their label; the JWT handler answers 500 with the
    fault's own message ([An error occurred] for a non-[Error] value). *)
Theorem delegate_fault_handling :
  (forall label hk H vortex cfg req c f,
     In (label, hk, H) invitation_handlers ->
     vortex c = DThrows f ->
     In (EvCall c) (snd (run (H vortex cfg req))) ->
     fst (run (H vortex cfg req)) = errorResponse genericErrorMessage 500
     /\ In (EvLog label f) (snd (run (H vortex cfg req))))
  /\ (forall vortex cfg req c f,
     vortex c = DThrows f ->
     In (EvCall c) (snd (run (handleJwtGeneration vortex cfg req))) ->
     fst (run (handleJwtGeneration vortex cfg req))
     = createErrorResponse (jwt_error_message f) 500).
Proof.
  split.
  - intros label hk H vortex cfg req c f Hh Hc Hin. each_handler Hh.
    all: reduce_handler; split_matches; finish_handler.
  - intros vortex cfg req c f Hc Hin.
    reduce_handler; split_matches; finish_handler.
Qed.

Lemma delegate_fault_handling_witness :
  (client_fails (GetInvitation (of_string "inv1")) = DThrows (FError (of_string "boom"))
   /\ In (EvCall (GetInvitation (of_string "inv1")))
        (snd (run (handleGetInvitation client_fails (demo_config signed_in None)
                     (demo_request "GET" [] [("invitationId", "inv1")] JUndef)))))
  /\ fst (run (handleGetInvitation client_fails (demo_config signed_in None)
               (demo_request "GET" [] [("invitationId", "inv1")] JUndef)))
     = errorResponse genericErrorMessage 500.
Proof.
  split.
  - split; [reflexivity | simpl; tauto].
  - apply (proj1 delegate_fault_handling "Error in handleGetInvitation:"
             canAccessInvitation handleGetInvitation client_fails
             (demo_config signed_in None)
             (demo_request "GET" [] [("invitationId", "inv1")] JUndef)
             (GetInvitation (of_string "inv1")) (FError (of_string "boom"))).
    + simpl; tauto.
    + reflexivity.
    + simpl; tauto.
Defined.

(** C2: the claim as stated fails: the client's message [boom] is not the
    message of the 500 answer of [handleGetInvitation]. *)
Lemma delegate_fault_message_not_surfaced :
  fst (run (handleGetInvitation client_fails (demo_config signed_in None)
              (demo_request "GET" [] [("invitationId", "inv1")] JUndef)))
  <> createErrorResponse (of_string "boom") 500.
Proof. vm_compute. discriminate. Qed.

(** C9 (code bug).  With no hook and no identity, get-by-target answers the
    malformed query [targetType=carrier-pigeon&targetValue=x] with the 403 of
    the access check, not with the 400 of validation; the sibling
    [handleGetInvitation] validates its input first and answers a malformed
    id with 400 without even resolving the identity. *)
Theorem getByTarget_gate_before_validation vortex :
  run (handleGetInvitationsByTarget vortex (demo_config None None)
         (demo_request "GET" [("targetType", js "carrier-pigeon"); ("targetValue", js "x")]
            [] JUndef))
  = (errorResponse configureHooksMessage 403, [EvAuthenticate])
  /\ run (handleGetInvitation vortex (demo_config None None)
            (demo_request "GET" [] [("invitationId", "<>")] JUndef))
     = (errorResponse "Invalid invitation ID" 400, []).
Proof. split; reflexivity. Qed.

(** C3 (corrected).  [sanitizeInput] gives [null] exactly for [null] and the
    empty string; otherwise it gives the input trimmed, stripped of the four
    characters and cut to 1000 code units, which can be the empty string.
    Every non-null result is free of the four characters and at most 1000
    code units long. *)
Theorem sanitizeInput_spec (input : option str) :
  (sanitizeInput input = None <-> input = None \/ input = Some [])
  /\ (forall r, sanitizeInput input = Some r ->
        exists s, input = Some s /\ s <> []
                  /\ r = substring0 (strip_xss (trim s)) 1000
                  /\ (forall c, In c r -> is_xss c = false)
                  /\ (List.length r <= 1000)%nat).
Proof.
  split.
  - destruct input as [[|x s]|]; simpl; split; intros H;
      try discriminate; try tauto; destruct H as [H|H]; discriminate.
  - intros r H. destruct input as [[|x s]|]; simpl in H; try discriminate.
    injection H as <-. exists (x :: s). repeat split.
    + discriminate.
    + apply sanitize_str_no_xss.
    + apply sanitize_str_length.
Qed.

Lemma sanitizeInput_spec_witness :
  sanitizeInput (Some (of_string "  <a>  ")) = Some (of_string "a")
  /\ exists s, Some (of_string "  <a>  ") = Some s /\ s <> []
              /\ of_string "a" = substring0 (strip_xss (trim s)) 1000
              /\ (forall c, In c (of_string "a") -> is_xss c = false)
              /\ (List.length (of_string "a") <= 1000)%nat.
Proof.
  split; [reflexivity |].
  apply (proj2 (sanitizeInput_spec (Some (of_string "  <a>  "))) (of_string "a")).
  reflexivity.
Defined.

(** C3: a non-absent result can be empty: an apostrophe alone sanitizes to
    the empty string, not to [null]. *)
Lemma sanitizeInput_nonnull_empty :
  ~ (forall input r, sanitizeInput input = Some r ->
       r <> [] /\ (forall c, In c r -> is_xss c = false) /\ (List.length r <= 1000)%nat).
Proof.
  intros H.
  destruct (H (Some (of_string "'")) []) as [Hne _]; [reflexivity |].
  now apply Hne.
Qed.

(** C7 (confirmed).  The issuer receives the display name and the avatar
    URL exactly when the identity carries them as non-empty strings, and
    the admin scopes and allowed email domains exactly when the identity
    carries them as non-empty arrays, each unchanged. *)
Theorem jwt_optional_fields vortex cfg req f au p :
  authenticateUser cfg = Some f -> f req = Some au ->
  In (EvCall (GenerateJwt p)) (snd (run (handleJwtGeneration vortex cfg req))) ->
  (forall n, jwt_userName (jwt_user p) = Some n <-> userName au = Some n /\ n <> [])
  /\ (forall a, jwt_userAvatarUrl (jwt_user p) = Some a <-> userAvatarUrl au = Some a /\ a <> [])
  /\ (forall l, jwt_adminScopes (jwt_user p) = Some l <-> adminScopes au = Some l /\ l <> [])
  /\ (forall l, jwt_allowedEmailDomains (jwt_user p) = Some l
                <-> allowedEmailDomains au = Some l /\ l <> []).
Proof.
  intros Ha Hf Hin.
  destruct (jwt_call_params vortex cfg req f au p Ha Hf Hin) as (id & email & _ & _ & ->).
  simpl. split; [| split; [| split]]; intros;
    first [ apply keep_if_truthy_spec | apply keep_if_nonempty_spec ].
Qed.

Lemma jwt_optional_fields_witness :
  In (EvCall (GenerateJwt (buildJwtParams demo_user_full (of_string "u1") (of_string "a@b.com"))))
     (snd (run (handleJwtGeneration client_ok (demo_config signed_in_full None)
                  (demo_request "POST" [] [] JUndef))))
  /\ jwt_userName (jwt_user (buildJwtParams demo_user_full (of_string "u1") (of_string "a@b.com"))) = None
  /\ jwt_adminScopes (jwt_user (buildJwtParams demo_user_full (of_string "u1") (of_string "a@b.com"))) = None
  /\ ((forall n, jwt_userName (jwt_user (buildJwtParams demo_user_full (of_string "u1") (of_string "a@b.com")))
                 = Some n <-> userName demo_user_full = Some n /\ n <> [])
      /\ (forall a, jwt_userAvatarUrl (jwt_user (buildJwtParams demo_user_full (of_string "u1") (of_string "a@b.com")))
                    = Some a <-> userAvatarUrl demo_user_full = Some a /\ a <> [])
      /\ (forall l, jwt_adminScopes (jwt_user (buildJwtParams demo_user_full (of_string "u1") (of_string "a@b.com")))
                    = Some l <-> adminScopes demo_user_full = Some l /\ l <> [])
      /\ (forall l, jwt_allowedEmailDomains (jwt_user (buildJwtParams demo_user_full (of_string "u1") (of_string "a@b.com")))
                    = Some l <-> allowedEmailDomains demo_user_full = Some l /\ l <> [])).
Proof.
  split; [simpl; tauto |]. split; [reflexivity |]. split; [reflexivity |].
  apply (jwt_optional_fields client_ok (demo_config signed_in_full None)
           (demo_request "POST" [] [] JUndef) (fun _ => Some demo_user_full) demo_user_full
           (buildJwtParams demo_user_full (of_string "u1") (of_string "a@b.com"))).
  - reflexivity.
  - reflexivity.
  - simpl; tauto.
Defined.

(** C6 (confirmed).  For a POST to /jwt: no [authenticateUser] hook gives a
    500 configuration error; a hook answering [null] gives 401
    [Unauthorized]; an identity without a (non-empty) [userId] or
    [userEmail] gives a 500; an identity with both gives 200 with the
    issued token under [jwt]. *)
Theorem jwt_status_by_identity vortex cfg req :
  method_is req "POST" = true ->
  (authenticateUser cfg = None ->
     fst (run (handleJwtGeneration vortex cfg req))
     = errorResponse "JWT generation requires authentication configuration. Please configure authenticateUser hook." 500)
  /\ (forall f, authenticateUser cfg = Some f -> f req = None ->
        fst (run (handleJwtGeneration vortex cfg req)) = errorResponse "Unauthorized" 401)
  /\ (forall f au, authenticateUser cfg = Some f -> f req = Some au ->
        str_truthy (userId au) = false \/ str_truthy (userEmail au) = false ->
        fst (run (handleJwtGeneration vortex cfg req))
        = errorResponse "Invalid user format: must provide userId and userEmail" 500)
  /\ (forall f au id email t, authenticateUser cfg = Some f -> f req = Some au ->
        userId au = Some id -> userEmail au = Some email -> id <> [] -> email <> [] ->
        vortex (GenerateJwt (buildJwtParams au id email)) = DReturns t ->
        fst (run (handleJwtGeneration vortex cfg req))
        = createApiResponse (obj [("jwt", t)])).
Proof.
  intros Hm. reduce_handler. rewrite Hm. simpl.
  repeat split.
  - intros Ha. now rewrite Ha.
  - intros f Ha Hf. now rewrite Ha, Hf.
  - intros f au Ha Hf Hbad. rewrite Ha, Hf.
    destruct (userId au) as [[|x s]|], (userEmail au) as [[|y t]|];
      simpl in *; try reflexivity; destruct Hbad; discriminate.
  - intros f au id email t Ha Hf Hid Hem Hid' Hem' Hv. rewrite Ha, Hf, Hid, Hem.
    destruct id as [|x s]; [congruence |]. destruct email as [|y e]; [congruence |].
    simpl. now rewrite Hv.
Qed.

Lemma jwt_status_by_identity_witness :
  method_is (demo_request "POST" [] [] JUndef) "POST" = true
  /\ fst (run (handleJwtGeneration client_ok (demo_config signed_in None)
                (demo_request "POST" [] [] JUndef)))
     = createApiResponse (obj [("jwt", js "ok")]).
Proof.
  split; [reflexivity |].
  apply (proj2 (proj2 (proj2 (jwt_status_by_identity client_ok (demo_config signed_in None)
                                (demo_request "POST" [] [] JUndef) eq_refl))))
    with (f := fun _ => Some demo_user) (au := demo_user)
         (id := of_string "u1") (email := of_string "a@b.com").
  all: first [reflexivity | discriminate].
Defined.

(** C4.  On the accept operation an empty id list gives 400 with no
    client call; an id list that sanitization shrinks (some id becomes
    empty or null) gives 400 with no client call; and every client call
    carries the sanitized list of a non-empty submitted list, of the same
    length as that list. *)
Theorem accept_ids_never_partial vortex cfg req :
  (method_is req "POST" = true ->
   get_field (body req) "invitationIds" = JArr [] ->
   fst (run (handleAcceptInvitations vortex cfg req))
   = errorResponse "invitationIds must be a non-empty array" 400
   /\ no_call (snd (run (handleAcceptInvitations vortex cfg req))))
  /\ (forall ids l,
      method_is req "POST" = true ->
      get_field (body req) "invitationIds" = JArr ids ->
      mapR sanitizeValue ids = Ret l ->
      (List.length (keep_truthy l) < List.length ids)%nat ->
      fst (run (handleAcceptInvitations vortex cfg req))
      = errorResponse "Invalid invitation IDs provided" 400
      /\ no_call (snd (run (handleAcceptInvitations vortex cfg req))))
  /\ (forall ids' data,
      In (EvCall (AcceptInvitations ids' data))
         (snd (run (handleAcceptInvitations vortex cfg req))) ->
      exists ids l, get_field (body req) "invitationIds" = JArr ids /\ ids <> []
                    /\ mapR sanitizeValue ids = Ret l /\ ids' = keep_truthy l
                    /\ List.length ids' = List.length ids).
Proof.
  split; [| split].
  - intros Hm Hids. reduce_handler. rewrite Hm.
    rewrite (get_field_defined_truthy _ _ (ltac:(rewrite Hids; discriminate))).
    cbv beta iota. rewrite Hids. split; [reflexivity | intros c []].
  - intros ids l Hm Hids Hl Hlt. reduce_handler. rewrite Hm.
    rewrite (get_field_defined_truthy _ _ (ltac:(rewrite Hids; discriminate))).
    cbv beta iota. rewrite Hids.
    destruct ids as [|j ids]; [simpl in Hlt; lia |].
    rewrite Hl. cbv beta iota.
    replace (Nat.eqb (List.length (keep_truthy l)) (List.length (j :: ids))) with false
      by (symmetry; apply Nat.eqb_neq; lia).
    split; [reflexivity | intros c []].
  - intros ids' data Hin. reduce_handler. split_matches.
    all: cbn [In fst snd negb andb orb] in Hin.
    all: repeat match type of Hin with
                | _ \/ _ => destruct Hin as [Hin | Hin]
                | False => destruct Hin
                | EvCall _ = EvCall _ => injection Hin as <- <-
                | _ = _ => discriminate Hin
                end.
    all: eexists _, _; repeat split; try eassumption; try discriminate.
    all: match goal with
         | H : negb (Nat.eqb _ _) = false |- _ =>
             apply Nat.eqb_eq; destruct (Nat.eqb _ _); [reflexivity | discriminate H]
         end.
Qed.

Lemma accept_ids_never_partial_witness :
  (method_is (demo_request "POST" [] [] (obj [("invitationIds", JArr [js "i1"; js "<>"])])) "POST" = true
   /\ get_field (body (demo_request "POST" [] [] (obj [("invitationIds", JArr [js "i1"; js "<>"])])))
        "invitationIds" = JArr [js "i1"; js "<>"]
   /\ mapR sanitizeValue [js "i1"; js "<>"] = Ret [Some (of_string "i1"); Some []]
   /\ (List.length (keep_truthy [Some (of_string "i1"); Some []]) < List.length [js "i1"; js "<>"])%nat)
  /\ fst (run (handleAcceptInvitations client_ok (demo_config signed_in None)
               (demo_request "POST" [] [] (obj [("invitationIds", JArr [js "i1"; js "<>"])]))))
     = errorResponse "Invalid invitation IDs provided" 400.
Proof.
  split; [repeat split; simpl; try reflexivity; lia |].
  apply (proj1 (proj2 (accept_ids_never_partial client_ok (demo_config signed_in None)
           (demo_request "POST" [] [] (obj [("invitationIds", JArr [js "i1"; js "<>"])]))))
           [js "i1"; js "<>"] [Some (of_string "i1"); Some []]).
  - reflexivity.
  - reflexivity.
  - reflexivity.
  - simpl; lia.
Defined.




(** C8 (code bug).  Get-by-target checks the kind only after its access
    check: the query of the spec's scenario,
    [targetType=carrier-pigeon&targetValue=x], gets 403 rather than the 400
    listing the allowed kinds when a hook denies, and when no hook is
    configured and no identity resolves.  The legacy target of the accept
    operation is checked as claimed: carrier-pigeon gives the 400 listing
    email, username, phoneNumber and phone, before any identity or hook,
    and phone is accepted. *)
Theorem getByTarget_invalid_kind_403 vortex :
  run (handleGetInvitationsByTarget vortex (demo_config signed_in (Some deny_all))
         (demo_request "GET" [("targetType", js "carrier-pigeon"); ("targetValue", js "x")]
            [] JUndef))
  = (errorResponse "Access denied" 403, [EvAuthenticate; EvHook false])
  /\ run (handleGetInvitationsByTarget vortex (demo_config None None)
            (demo_request "GET" [("targetType", js "carrier-pigeon"); ("targetValue", js "x")]
               [] JUndef))
     = (errorResponse configureHooksMessage 403, [EvAuthenticate])
  /\ run (handleAcceptInvitations vortex (demo_config signed_in None)
            (accept_request [("target", obj [("type", js "carrier-pigeon"); ("value", js "x")])]))
     = (errorResponse "target.type must be email, username, phoneNumber, or phone" 400, [])
  /\ run (handleAcceptInvitations client_ok (demo_config signed_in None)
            (accept_request [("target", obj [("type", js "phone"); ("value", js "555")])]))
     = (createApiResponse (js "ok"),
        [EvAuthenticate;
         EvCall (AcceptInvitations [of_string "i1"]
                   (obj [("type", js "phone"); ("value", js "555")]))]).
Proof. split; [| split; [| split]]; reflexivity. Qed.

(** C10.  With the legacy target shape the forwarded value is the
    sanitized value when that is non-empty, and the original value
    otherwise: a value made only of stripped characters reaches the
    client unsanitized. *)
Theorem accept_legacy_value_fallback vortex cfg req ids l v :
  method_is req "POST" = true ->
  get_field (body req) "invitationIds" = JArr ids -> ids <> [] ->
  mapR sanitizeValue ids = Ret l ->
  List.length (keep_truthy l) = List.length ids ->
  truthy (get_field (body req) "user") = false ->
  includes_v ["email"; "username"; "phoneNumber"; "phone"]
    (get_field (get_field (body req) "target") "type") = true ->
  get_field (get_field (body req) "target") "value" = JStr v -> v <> [] ->
  gate_allows (canAcceptInvitations cfg) cfg req
    (RAccept (keep_truthy l) (get_field (body req) "target")
             (get_field (body req) "user")) ->
  In (EvCall (AcceptInvitations (keep_truthy l)
                (obj [("type", get_field (get_field (body req) "target") "type");
                      ("value", if str_truthy (Some (sanitize_str v))
                                then JStr (sanitize_str v) else JStr v)])))
     (snd (run (handleAcceptInvitations vortex cfg req))).
Proof.
  intros Hm Hids Hne Hl Hlen Hu Hinc Hv Hvne Hg.
  assert (Hty : truthy (get_field (get_field (body req) "target") "type") = true).
  { destruct (get_field (get_field (body req) "target") "type") as [| | | |[|c s]| |];
      simpl in Hinc |- *; try discriminate; reflexivity. }
  assert (Ht : truthy (get_field (body req) "target") = true).
  { apply (get_field_defined_truthy _ "type"). intros E. rewrite E in Hty. discriminate. }
  accept_prep Hm Hids Hne Hl Hlen.
  rewrite Hu, Ht, Hty, Hinc, Hv. destruct v as [|x v]; [contradiction |].
  cbv beta iota. simpl.
  split_matches; finish_accept.
Qed.

Lemma accept_legacy_value_fallback_witness :
  In (EvCall (AcceptInvitations [of_string "i1"]
                (obj [("type", js "email"); ("value", js "<>")])))
     (snd (run (handleAcceptInvitations client_ok (demo_config signed_in None)
                  (accept_request [("target", obj [("type", js "email"); ("value", js "<>")])])))).
Proof.
  apply (accept_legacy_value_fallback client_ok (demo_config signed_in None)
           (accept_request [("target", obj [("type", js "email"); ("value", js "<>")])])
           [js "i1"] [Some (of_string "i1")] (of_string "<>")).
  all: first [reflexivity | discriminate].
Defined.

(** ** Further properties of the code *)

(** createVortexApiPath drops exactly one trailing slash of the base URL:
    a base ending in one slash gives the base itself followed by the route
    path, and a base not ending in a slash is kept as it is. *)
Theorem createVortexApiPath_trailing_slash :
  (forall base k,
     createVortexApiPath (base ++ of_string "/")%list k
     = (base ++ of_string (VORTEX_ROUTES k))%list)
  /\ (forall base k, last base 0 <> 47 ->
      createVortexApiPath base k = (base ++ of_string (VORTEX_ROUTES k))%list).
Proof.
  split.
  - intros base k. unfold createVortexApiPath. now rewrite strip_trailing_slash_snoc.
  - intros base k Hl. unfold createVortexApiPath. now rewrite strip_trailing_slash_other.
Qed.

Lemma createVortexApiPath_trailing_slash_witness :
  createVortexApiPath (of_string "/api/v1/vortex") INVITATIONS_ACCEPT
  = of_string "/api/v1/vortex/invitations/accept".
Proof.
  apply (proj2 createVortexApiPath_trailing_slash). vm_compute. discriminate.
Defined.

(** registerVortexRoutes registers the same verbs and handlers as
    createVortexRouter, in the same order, each at the router path
    prefixed by the base path without its trailing slash; an omitted base
    path is /api/vortex. *)
Theorem registerVortexRoutes_matches_router :
  (forall base,
     registerVortexRoutes (Some base)
     = map (fun r => match r with
                     | (v, p, h) => (v, (strip_trailing_slash base ++ p)%list, h)
                     end) createVortexRouter)
  /\ registerVortexRoutes None = registerVortexRoutes (Some (of_string "/api/vortex")).
Proof. split; reflexivity. Qed.

(** A POST to accept or to sync with a falsy body (no JSON parser installed)
    answers 500 with the generic message and only logs the parse error: no
    identity is resolved and the client is not called. *)
Theorem body_missing_500 vortex cfg req :
  method_is req "POST" = true -> truthy (body req) = false ->
  run (handleAcceptInvitations vortex cfg req)
  = (errorResponse genericErrorMessage 500,
     [EvLog "Error in handleAcceptInvitations:"
        (FError (of_string "Request body is empty or not parsed"))])
  /\ run (handleSyncInternalInvitation vortex cfg req)
  = (errorResponse genericErrorMessage 500,
     [EvLog "Error in handleSyncInternalInvitation:"
        (FError (of_string "Request body is empty or not parsed"))]).
Proof.
  intros Hm Hb. reduce_handler. rewrite Hm, Hb. split; reflexivity.
Qed.

Lemma body_missing_500_witness :
  fst (run (handleAcceptInvitations client_ok (demo_config signed_in None)
              (demo_request "POST" [] [] JUndef)))
  = errorResponse genericErrorMessage 500.
Proof.
  rewrite (proj1 (body_missing_500 client_ok (demo_config signed_in None)
                    (demo_request "POST" [] [] JUndef) eq_refl eq_refl)).
  reflexivity.
Defined.

(** Each handler registered by createVortexRouter checks the verb it is
    registered under: another verb gets 405 before anything else happens,
    and that verb never gets 405. *)
Theorem router_method_dispatch v p H vortex cfg req :
  In (v, p, H) createVortexRouter ->
  (method_is req (verb_name v) = false -> run (H vortex cfg req) = (methodNotAllowed, []))
  /\ (method_is req (verb_name v) = true -> status (fst (run (H vortex cfg req))) <> 405).
Proof.
  intros Hin. unfold createVortexRouter, createVortexRoutes in Hin. each_handler Hin.
  all: split; intros Hm; cbn [verb_name] in Hm; reduce_handler; rewrite Hm;
    cbv beta iota; [reflexivity |].
  all: split_matches.
  all: cbn; discriminate.
Qed.

Lemma router_method_dispatch_witness :
  run (handleRevokeInvitation client_ok (demo_config signed_in None)
         (demo_request "GET" [] [("invitationId", "i1")] JUndef))
  = (methodNotAllowed, []).
Proof.
  apply (proj1 (router_method_dispatch VDelete (of_string (VORTEX_ROUTES INVITATION))
                  handleRevokeInvitation client_ok (demo_config signed_in None)
                  (demo_request "GET" [] [("invitationId", "i1")] JUndef)
                  ltac:(simpl; tauto))).
  reflexivity.
Defined.

(** Every handler answers with status 200, 400, 401, 403, 405 or 500, and
    every non-200 answer is an object with a single error string: no fault
    escapes a handler. *)
Theorem response_shape H vortex cfg req :
  In H all_handlers ->
  In (status (fst (run (H vortex cfg req)))) [200; 400; 401; 403; 405; 500]
  /\ (status (fst (run (H vortex cfg req))) <> 200 ->
      exists m, payload (fst (run (H vortex cfg req))) = obj [("error", JStr m)]).
Proof. intros Hh. each_handler Hh. all: by_facts vortex cfg req. Qed.

Lemma response_shape_witness :
  In (status (fst (run (handleRevokeInvitation client_ok (demo_config None None)
                          (demo_request "DELETE" [] [("invitationId", "i1")] JUndef)))))
     [200; 400; 401; 403; 405; 500]
  /\ (status (fst (run (handleRevokeInvitation client_ok (demo_config None None)
                          (demo_request "DELETE" [] [("invitationId", "i1")] JUndef)))) <> 200 ->
      exists m, payload (fst (run (handleRevokeInvitation client_ok (demo_config None None)
                          (demo_request "DELETE" [] [("invitationId", "i1")] JUndef))))
                = obj [("error", JStr m)]).
Proof.
  apply (response_shape handleRevokeInvitation client_ok (demo_config None None)
           (demo_request "DELETE" [] [("invitationId", "i1")] JUndef)).
  simpl; tauto.
Defined.

(** A handler answers 200 exactly when it called the client and the call
    returned. *)
Theorem status_200_iff_client_returned H vortex cfg req :
  In H all_handlers ->
  (status (fst (run (H vortex cfg req))) = 200
   <-> exists c v, In (EvCall c) (snd (run (H vortex cfg req))) /\ vortex c = DReturns v).
Proof. intros Hh. each_handler Hh. all: by_facts vortex cfg req. Qed.

Lemma status_200_iff_client_returned_witness :
  status (fst (run (handleGetInvitation client_fails (demo_config signed_in None)
                      (demo_request "GET" [] [("invitationId", "i1")] JUndef)))) = 200
  <-> exists c v, In (EvCall c) (snd (run (handleGetInvitation client_fails
                     (demo_config signed_in None)
                     (demo_request "GET" [] [("invitationId", "i1")] JUndef))))
                  /\ client_fails c = DReturns v.
Proof.
  apply (status_200_iff_client_returned handleGetInvitation client_fails
           (demo_config signed_in None) (demo_request "GET" [] [("invitationId", "i1")] JUndef)).
  simpl; tauto.
Defined.

(** A request calls the client at most once and resolves the identity at
    most once. *)
Theorem at_most_one_call H vortex cfg req :
  In H all_handlers ->
  (List.length (filter is_call (snd (run (H vortex cfg req)))) <= 1)%nat
  /\ (List.length (filter is_authenticate (snd (run (H vortex cfg req)))) <= 1)%nat.
Proof. intros Hh. each_handler Hh. all: by_facts vortex cfg req. Qed.

Lemma at_most_one_call_witness :
  (List.length (filter is_call (snd (run (handleAcceptInvitations client_ok
      (demo_config signed_in None) (accept_request [("user", obj [("email", js "a@b.com")])])))))
   <= 1)%nat
  /\ (List.length (filter is_authenticate (snd (run (handleAcceptInvitations client_ok
      (demo_config signed_in None) (accept_request [("user", obj [("email", js "a@b.com")])])))))
   <= 1)%nat.
Proof.
  apply (at_most_one_call handleAcceptInvitations client_ok (demo_config signed_in None)
           (accept_request [("user", obj [("email", js "a@b.com")])])).
  simpl; tauto.
Defined.

(** Every handler but get-by-target and JWT issuance answers a 400 before it
    resolves the identity, consults a hook or calls the client. *)
Theorem validation_400_before_identity H vortex cfg req :
  In H validate_first_handlers ->
  status (fst (run (H vortex cfg req))) = 400 ->
  snd (run (H vortex cfg req)) = [].
Proof. intros Hh. each_handler Hh. all: by_facts vortex cfg req. Qed.

Lemma validation_400_before_identity_witness :
  snd (run (handleGetInvitationsByGroup client_ok (demo_config signed_in None)
              (demo_request "GET" [] [("groupType", "<>"); ("groupId", "g1")] JUndef)))
  = [].
Proof.
  apply (validation_400_before_identity handleGetInvitationsByGroup client_ok
           (demo_config signed_in None)
           (demo_request "GET" [] [("groupType", "<>"); ("groupId", "g1")] JUndef)).
  - simpl; tauto.
  - reflexivity.
Defined.

(** The by-target, by-id, by-group and accept handlers pass the client
    only sanitized identifiers: every target kind and value, invitation id,
    group type and group id is non-empty, free of the four stripped
    characters and at most 1000 code units long.  The [acceptData] of
    accept is not covered: its legacy value can be the raw value. *)
Theorem client_args_sanitized H vortex cfg req c :
  In H sanitizing_handlers ->
  In (EvCall c) (snd (run (H vortex cfg req))) ->
  call_args_clean c.
Proof.
  intros Hh. each_handler Hh. all: revert c; by_facts vortex cfg req.
Qed.

Lemma client_args_sanitized_witness :
  call_args_clean (GetInvitation (of_string "i1")).
Proof.
  apply (client_args_sanitized handleGetInvitation client_ok (demo_config signed_in None)
           (demo_request "GET" [] [("invitationId", " <i1> ")] JUndef)).
  - simpl; tauto.
  - vm_compute. repeat (first [left; reflexivity | right]).
Defined.

(** Accept answers 500 (not 400) with no client call when an invitation id,
    a user email, phone or name, or a legacy target value is a truthy value
    that is not a string: sanitizeInput throws on it. *)
Theorem accept_non_string_500 vortex cfg req :
  method_is req "POST" = true ->
  (forall ids v,
     get_field (body req) "invitationIds" = JArr ids ->
     In v ids -> str_or_falsy v = false ->
     fst (run (handleAcceptInvitations vortex cfg req))
     = errorResponse genericErrorMessage 500
     /\ no_call (snd (run (handleAcceptInvitations vortex cfg req))))
  /\ (forall ids l,
     get_field (body req) "invitationIds" = JArr ids -> ids <> [] ->
     mapR sanitizeValue ids = Ret l ->
     List.length (keep_truthy l) = List.length ids ->
     truthy (get_field (body req) "user") = true ->
     truthy (get_field (get_field (body req) "user") "email")
     || truthy (get_field (get_field (body req) "user") "phone") = true ->
     str_or_falsy (get_field (get_field (body req) "user") "email") = false
     \/ str_or_falsy (get_field (get_field (body req) "user") "phone") = false
     \/ str_or_falsy (get_field (get_field (body req) "user") "name") = false ->
     fst (run (handleAcceptInvitations vortex cfg req))
     = errorResponse genericErrorMessage 500
     /\ no_call (snd (run (handleAcceptInvitations vortex cfg req))))
  /\ (forall ids l,
     get_field (body req) "invitationIds" = JArr ids -> ids <> [] ->
     mapR sanitizeValue ids = Ret l ->
     List.length (keep_truthy l) = List.length ids ->
     truthy (get_field (body req) "user") = false ->
     includes_v ["email"; "username"; "phoneNumber"; "phone"]
       (get_field (get_field (body req) "target") "type") = true ->
     str_or_falsy (get_field (get_field (body req) "target") "value") = false ->
     fst (run (handleAcceptInvitations vortex cfg req))
     = errorResponse genericErrorMessage 500
     /\ no_call (snd (run (handleAcceptInvitations vortex cfg req)))).
Proof.
  intros Hm. split; [| split].
  - intros ids v Hids Hin Hv.
    destruct (sanitizeValue_non_string v Hv) as [f Hf].
    destruct (mapR_thrown sanitizeValue ids v f Hin Hf) as [f' Hf'].
    reduce_handler. rewrite Hm.
    rewrite (get_field_defined_truthy _ _ (ltac:(rewrite Hids; discriminate))).
    cbv beta iota. rewrite Hids.
    destruct ids as [|j ids]; [destruct Hin |].
    rewrite Hf'. cbv beta iota zeta delta [negb andb orb fst snd app]. finish_500.
  - intros ids l Hids Hne Hl Hlen Hu Hep Hbad. accept_prep Hm Hids Hne Hl Hlen.
    rewrite Hu. cbv beta iota.
    rewrite (negb_andb_negb (truthy (get_field (get_field (body req) "user") "email"))), Hep.
    cbv beta iota.
    destruct Hbad as [Hbad | [Hbad | Hbad]]; split_matches; finish_500.
  - intros ids l Hids Hne Hl Hlen Hu Hinc Hbad.
    pose proof (includes_v_accept_truthy _ Hinc) as Hty.
    pose proof (str_or_falsy_false_truthy _ Hbad) as Hvt.
    destruct (sanitizeValue_non_string _ Hbad) as [f Hf].
    assert (Ht : truthy (get_field (body req) "target") = true).
    { apply (get_field_defined_truthy _ "type"). intros E. rewrite E in Hty. discriminate. }
    accept_prep Hm Hids Hne Hl Hlen.
    rewrite Hu, Ht, Hty, Hvt, Hinc. cbv beta iota.
    rewrite Hf. cbv beta iota zeta delta [negb andb orb fst snd app]. finish_500.
Qed.

Lemma accept_non_string_500_witness :
  fst (run (handleAcceptInvitations client_ok (demo_config signed_in None)
              (demo_request "POST" [] [] (obj [("invitationIds", JArr [JNum 5])]))))
  = errorResponse genericErrorMessage 500
  /\ no_call (snd (run (handleAcceptInvitations client_ok (demo_config signed_in None)
              (demo_request "POST" [] [] (obj [("invitationIds", JArr [JNum 5])]))))).
Proof.
  apply (proj1 (accept_non_string_500 client_ok (demo_config signed_in None)
                  (demo_request "POST" [] [] (obj [("invitationIds", JArr [JNum 5])])) eq_refl)
           [JNum 5] (JNum 5)).
  - reflexivity.
  - left; reflexivity.
  - reflexivity.
Defined.

(** Sync calls the client only with string fields, an action of accepted or
    declined, and the sanitized creatorId, targetValue and componentId, which
    can be empty: creatorId <> is forwarded as the empty string. *)
Theorem sync_call_args vortex cfg req c :
  In (EvCall c) (snd (run (handleSyncInternalInvitation vortex cfg req))) ->
  exists creatorId targetValue action componentId,
    get_field (body req) "creatorId" = JStr creatorId /\ creatorId <> []
    /\ get_field (body req) "targetValue" = JStr targetValue /\ targetValue <> []
    /\ get_field (body req) "action" = JStr action
    /\ includes ["accepted"; "declined"] action = true
    /\ get_field (body req) "componentId" = JStr componentId /\ componentId <> []
    /\ c = SyncInternalInvitation (sanitize_str creatorId) (sanitize_str targetValue)
             action (sanitize_str componentId).
Proof.
  intros Hin. reduce_handler. split_matches; split_in Hin.
  all: do 4 eexists; repeat split; try eassumption; try discriminate.
  all: apply negb_false_iff; assumption.
Qed.

Lemma sync_call_args_witness :
  exists creatorId targetValue action componentId,
    get_field (obj [("creatorId", js "<>"); ("targetValue", js "a@b.com");
                    ("action", js "accepted"); ("componentId", js "c1")]) "creatorId"
    = JStr creatorId /\ creatorId <> []
    /\ get_field (obj [("creatorId", js "<>"); ("targetValue", js "a@b.com");
                       ("action", js "accepted"); ("componentId", js "c1")]) "targetValue"
       = JStr targetValue /\ targetValue <> []
    /\ get_field (obj [("creatorId", js "<>"); ("targetValue", js "a@b.com");
                       ("action", js "accepted"); ("componentId", js "c1")]) "action"
       = JStr action
    /\ includes ["accepted"; "declined"] action = true
    /\ get_field (obj [("creatorId", js "<>"); ("targetValue", js "a@b.com");
                       ("action", js "accepted"); ("componentId", js "c1")]) "componentId"
       = JStr componentId /\ componentId <> []
    /\ SyncInternalInvitation [] (of_string "a@b.com") (of_string "accepted")
         (of_string "c1")
       = SyncInternalInvitation (sanitize_str creatorId) (sanitize_str targetValue)
           action (sanitize_str componentId).
Proof.
  apply (sync_call_args client_ok (demo_config signed_in None)
           (demo_request "POST" [] []
              (obj [("creatorId", js "<>"); ("targetValue", js "a@b.com");
                    ("action", js "accepted"); ("componentId", js "c1")]))).
  vm_compute. repeat (first [left; reflexivity | right]).
Defined.

(** With the user shape, accept forwards each of email, phone and name
    sanitized, or undefined when falsy; a field made only of stripped
    characters is forwarded as the empty string, not rejected. *)
Theorem accept_user_data_forwarded vortex cfg req ids data :
  In (EvCall (AcceptInvitations ids data)) (snd (run (handleAcceptInvitations vortex cfg req))) ->
  truthy (get_field (body req) "user") = true ->
  data = obj [("email", accept_user_field (get_field (get_field (body req) "user") "email"));
              ("phone", accept_user_field (get_field (get_field (body req) "user") "phone"));
              ("name", accept_user_field (get_field (get_field (body req) "user") "name"))].
Proof.
  intros Hin Hu. reduce_handler. split_matches; split_in Hin.
  all: repeat match goal with
              | H1 : truthy ?v = true, H2 : sanitizeValue ?v = Ret ?o |- _ =>
                  rewrite (optional_field_sanitized v o H1 H2); clear H2
              | H1 : truthy ?v = false |- context [accept_user_field ?v] =>
                  rewrite (optional_field_falsy v H1)
              end.
  all: first [reflexivity | exfalso; cbn [negb andb orb] in *; congruence].
Qed.

Lemma accept_user_data_forwarded_witness :
  obj [("email", js "a@b.com"); ("phone", JUndef); ("name", JStr [])]
  = obj [("email", accept_user_field (js "<a@b.com>"));
         ("phone", accept_user_field JUndef);
         ("name", accept_user_field (js "'"))].
Proof.
  apply (accept_user_data_forwarded client_ok (demo_config signed_in None)
           (accept_request [("user", obj [("email", js "<a@b.com>"); ("name", js "'")])])
           [of_string "i1"] (obj [("email", js "a@b.com"); ("phone", JUndef); ("name", JStr [])])).
  - vm_compute. repeat (first [left; reflexivity | right]).
  - reflexivity.
Defined.

(** JWT issuance forwards the userId and userEmail of the identity
    unchanged (not sanitized), and the attributes exactly when they are
    truthy. *)
Theorem jwt_identity_forwarded vortex cfg req f au p :
  authenticateUser cfg = Some f -> f req = Some au ->
  In (EvCall (GenerateJwt p)) (snd (run (handleJwtGeneration vortex cfg req))) ->
  userId au = Some (jwt_id (jwt_user p)) /\ userEmail au = Some (jwt_email (jwt_user p))
  /\ (forall a, jwt_attributes p = Some a <-> truthy (attributes au) = true /\ a = attributes au).
Proof.
  intros Ha Hf Hin.
  destruct (jwt_call_params vortex cfg req f au p Ha Hf Hin) as [id [email [Hi [He ->]]]].
  cbn [buildJwtParams jwt_user jwt_id jwt_email jwt_attributes].
  split; [exact Hi | split; [exact He |]].
  intros a. destruct (truthy (attributes au)); split.
  - intros H. injection H as <-. split; reflexivity.
  - intros [_ ->]. reflexivity.
  - discriminate.
  - intros [H _]. discriminate.
Qed.

Lemma jwt_identity_forwarded_witness :
  userId demo_user = Some (of_string "u1") /\ userEmail demo_user = Some (of_string "a@b.com")
  /\ (forall a, None = Some a <-> truthy (attributes demo_user) = true /\ a = attributes demo_user).
Proof.
  apply (jwt_identity_forwarded client_ok (demo_config signed_in None)
           (demo_request "POST" [] [] JUndef) (fun _ => Some demo_user) demo_user
           (buildJwtParams demo_user (of_string "u1") (of_string "a@b.com"))).
  - reflexivity.
  - reflexivity.
  - vm_compute. repeat (first [left; reflexivity | right]).
Defined.

(** Get-by-target checks the sanitized [targetType] against email,
    username and phoneNumber once the access check allows and both
    sanitized query parameters are non-empty, and answers 400 listing those
    values otherwise, without calling the client.  With a valid id list,
    no truthy [user] and a legacy [target] whose [type] and [value] are
    truthy, accept checks the raw [type] against email, username,
    phoneNumber and phone, and answers 400 listing them otherwise, without
    calling the client. *)
Theorem target_kind_checks :
  (forall vortex cfg req tt tv,
     method_is req "GET" = true ->
     gate_allows (canAccessInvitationsByTarget cfg) cfg req RNone ->
     sanitizeInput (getQueryParam req "targetType") = Some tt -> tt <> [] ->
     sanitizeInput (getQueryParam req "targetValue") = Some tv -> tv <> [] ->
     includes ["email"; "username"; "phoneNumber"] tt = false ->
     fst (run (handleGetInvitationsByTarget vortex cfg req))
     = errorResponse "targetType must be email, username, or phoneNumber" 400
     /\ no_call (snd (run (handleGetInvitationsByTarget vortex cfg req))))
  /\ (forall vortex cfg req ids l,
     method_is req "POST" = true ->
     get_field (body req) "invitationIds" = JArr ids -> ids <> [] ->
     mapR sanitizeValue ids = Ret l ->
     List.length (keep_truthy l) = List.length ids ->
     truthy (get_field (body req) "user") = false ->
     truthy (get_field (get_field (body req) "target") "type") = true ->
     truthy (get_field (get_field (body req) "target") "value") = true ->
     includes_v ["email"; "username"; "phoneNumber"; "phone"]
       (get_field (get_field (body req) "target") "type") = false ->
     fst (run (handleAcceptInvitations vortex cfg req))
     = errorResponse "target.type must be email, username, phoneNumber, or phone" 400
     /\ no_call (snd (run (handleAcceptInvitations vortex cfg req)))).
Proof.
  split.
  - intros vortex cfg req tt tv Hm Hg Htt Httne Htv Htvne Hinc.
    reduce_handler. rewrite Hm. cbv beta iota.
    rewrite Htt, Htv.
    destruct tt as [|x tt]; [contradiction |]. destruct tv as [|y tv]; [contradiction |].
    rewrite Hinc. cbv beta iota.
    unfold gate_allows, resolve in Hg.
    destruct (canAccessInvitationsByTarget cfg) as [h|];
      destruct (authenticateUser cfg) as [o|]; cbn [negb] in *.
    + rewrite Hg. split; [reflexivity | intros c [H|[H|[]]]; discriminate].
    + rewrite Hg. split; [reflexivity | intros c [H|[H|[]]]; discriminate].
    + destruct (o req); [| contradiction].
      split; [reflexivity | intros c [H|[]]; discriminate].
    + contradiction.
  - intros vortex cfg req ids l Hm Hids Hne Hl Hlen Hu Hty Hv Hinc.
    assert (Ht : truthy (get_field (body req) "target") = true).
    { apply (get_field_defined_truthy _ "type"). intros E. rewrite E in Hty. discriminate. }
    accept_prep Hm Hids Hne Hl Hlen.
    rewrite Hu, Ht, Hty, Hv, Hinc. cbv beta iota. simpl.
    split; [reflexivity | intros c []].
Qed.

Lemma target_kind_checks_witness :
  fst (run (handleGetInvitationsByTarget client_ok (demo_config signed_in None)
              (demo_request "GET" [("targetType", js "carrier-pigeon"); ("targetValue", js "x")]
                 [] JUndef)))
  = errorResponse "targetType must be email, username, or phoneNumber" 400.
Proof.
  apply (proj1 target_kind_checks client_ok (demo_config signed_in None)
           (demo_request "GET" [("targetType", js "carrier-pigeon"); ("targetValue", js "x")]
              [] JUndef)
           (of_string "carrier-pigeon") (of_string "x")).
  all: first [reflexivity | discriminate].
Defined.

